(** * gbdxtools.images.meta: deferred, geo-referenced images

    A shallow embedding of [gbdxtools/images/meta.py] and the properties of
    its specification.  Python objects become records, exceptions become
    the [Raise] branch of [result], dictionaries become [gmap]s, tuples and
    lists become [list]s.  The arithmetic of [warp] is done in IEEE
    binary64, as Python does it.  Collaborators that live outside the
    module (shapely predicates, pyproj, the transform object, the chunk
    normalization of dask, the metadata service) enter through type
    classes. *)

From Stdlib Require Import ZArith QArith Qround Qminmax Qabs Qpower String List Lia.
From Stdlib Require Import SpecFloat.
From stdpp Require Import base option list gmap strings.
Import ListNotations.
Local Open Scope Z_scope.

(** ** Python results *)

(** The exceptions the module raises or lets through.  An assertion
    carries its message template and the values formatted into it. *)
Inductive exn : Type :=
  | AssertionError (template : string) (args : list (list Q))
  | TypeError
  | ValueError
  | IndexError
  | KeyError
  | AttributeError
  | ZeroDivisionError
  | OverflowError
  | TransformNotInvertibleError.

Inductive result (A : Type) : Type :=
  | Ok (a : A)
  | Raise (e : exn).
Arguments Ok {A} a.
Arguments Raise {A} e.

#[global] Instance result_ret : MRet result := fun A a => Ok a.
#[global] Instance result_bind : MBind result := fun A B f m =>
  match m with Ok a => f a | Raise e => Raise e end.
#[global] Instance result_fmap : FMap result := fun A B f m =>
  match m with Ok a => Ok (f a) | Raise e => Raise e end.

Definition is_Ok {A} (r : result A) : Prop := exists a, r = Ok a.

(** [assert cond, msg]: the message is only built when the test fails. *)
Definition py_assert (cond : bool) (template : string) (args : list (list Q))
  : result unit :=
  if cond then Ok tt else Raise (AssertionError template args).

(** ** Tuples, ranges and slices *)

Module Py.

(** [t[i]] for a non-negative constant index. *)
Definition index {A} (t : list A) (i : nat) : result A :=
  match t !! i with Some a => Ok a | None => Raise IndexError end.

(** [xrange(n)]: empty when [n <= 0]. *)
Definition xrange (n : Z) : list Z := seqZ 0 n.

(** Bounds of a slice with step 1 over an axis of length [n]: a negative
    bound counts from the end, and both are clipped into [0, n]. *)
Definition clip (n i : Z) : Z :=
  if i <? 0 then Z.max (i + n) 0 else Z.min i n.

Definition slice_bounds (n start stop : Z) : Z * Z :=
  let a := clip n start in
  let b := clip n stop in
  (a, Z.max a b).

(** Bounds of a slice with step -1: a negative bound counts from the
    end; [start] is clipped into [-1, n-1] and so is [stop]. *)
Definition clip_rev (n i : Z) : Z :=
  if i <? 0 then Z.max (i + n) (-1) else Z.min i (n - 1).

(** [t[start:stop:-1]]: the items at [start, start-1, ..., stop+1]. *)
Definition slice_rev {A} (t : list A) (start stop : Z) : list A :=
  let n := Z.of_nat (length t) in
  let a := clip_rev n start in
  let b := clip_rev n stop in
  omap (fun i => t !! Z.to_nat i) (reverse (seqZ (b + 1) (a - b))).

(** [t[:k]] and [t[k:]] for a non-negative constant [k]. *)
Definition slice_to {A} (t : list A) (k : nat) : list A := take k t.
Definition slice_from {A} (t : list A) (k : nat) : list A := drop k t.

(** [sum(t)] on integers. *)
Definition sum (t : list Z) : Z := foldl Z.add 0 t.

(** [for x in l: body]: the loop carries a state and stops at the first
    iteration that raises. *)
Fixpoint for_each {A S} (body : S -> A -> result S) (s : S) (l : list A)
  : result S :=
  match l with
  | [] => Ok s
  | x :: l => s' ← body s x; for_each body s' l
  end.

End Py.

(** ** The random module *)

(** A finite uniform choice is the list of its equally likely outcomes. *)
Abbreviation dist A := (list A) (only parsing).

Definition dist_bind {A B} (d : dist A) (f : A -> dist B) : dist B := d ≫= f.

Module random.

(** [random.randrange(start, stop)]: uniform over [range(start, stop)],
    [ValueError] when the range is empty. *)
Definition randrange (start stop : Z) : result (dist Z) :=
  if start <? stop then Ok (seqZ start (stop - start)) else Raise ValueError.

End random.

(** ** DaskMeta: what a dask array is built from *)

(** A task key of a dask graph: [(name, band, row, col)]. *)
Abbreviation key := (string * Z * Z * Z)%type (only parsing).

(** The abstract properties of [DaskMeta]; [V] is the type of the tasks
    stored in the graph.  [chunks] holds one block size per axis, [dtype]
    may be [None]. *)
Class DaskMeta (V M : Type) : Type := {
  dask : M -> gmap key V;
  name : M -> string;
  chunks : M -> list Z;
  dtype : M -> option string;
  shape : M -> list Z
}.

(** The dictionary [DaskMetaWrapper] wraps, with the five keys it reads. *)
Record daskmeta_dict (V : Type) : Type := {
  da_dask : gmap key V;
  da_chunks : list Z;
  da_dtype : option string;
  da_name : string;
  da_shape : list Z
}.
Arguments da_dask {V} _.
Arguments da_chunks {V} _.
Arguments da_dtype {V} _.
Arguments da_name {V} _.
Arguments da_shape {V} _.

#[global] Instance DaskMetaWrapper (V : Type) : DaskMeta V (daskmeta_dict V) := {
  dask := da_dask;
  name := da_name;
  chunks := da_chunks;
  dtype := da_dtype;
  shape := da_shape
}.

(** ** dask arrays *)

(** What the array constructor of dask calls: [normalize_chunks(chunks,
    shape)] of dask.array.core, the blocks of every axis or an error when
    the chunks do not fit the shape, and [np.dtype(name)] of numpy, the
    data type a name stands for or an error when it stands for none. *)
Class DaskLibrary : Type := {
  normalize_chunks : list Z -> list Z -> result (list (list Z));
  np_dtype : string -> result string
}.

(** ** DaskImage *)

(** A dask array as this module sees it: the graph, the name, the
    normalized chunks (the blocks of every axis) and the dtype it stores,
    and the [__daskmeta__] entry of the instance dictionary, which holds a
    property whose getter returns the attached object. *)
Record DaskImage (V M : Type) : Type := {
  arr_dask : gmap key V;
  arr_name : string;
  arr_chunks : list (list Z);
  arr_dtype : string;
  arr_daskmeta : option M
}.
Arguments arr_dask {V M} _.
Arguments arr_name {V M} _.
Arguments arr_chunks {V M} _.
Arguments arr_dtype {V M} _.
Arguments arr_daskmeta {V M} _.

(** The [shape] property of a dask array: [tuple(map(sum, self.chunks))]. *)
Definition arr_shape {V M} (self : DaskImage V M) : list Z :=
  Py.sum <$> arr_chunks self.

(** The attribute [img.__daskmeta__].  The class defines [__daskmeta__]
    as a property whose getter is [pass]; a property is a data descriptor
    and is looked up before the instance dictionary, so the access runs
    that getter whatever the instance dictionary holds. *)
Definition __daskmeta__ {V M} (self : DaskImage V M) : option M := None.

(** The argument of [create] is any Python object: an instance of a
    [DaskMeta] subclass, or something else. *)
Inductive pyarg (M : Type) : Type :=
  | DaskMetaInstance (dm : M)
  | OtherObject.
Arguments DaskMetaInstance {M} dm.
Arguments OtherObject {M}.

(** A window of a three-axis array: all bands, rows [row0, row1) and
    columns [col0, col1), bounds already clipped as Python clips them. *)
Record window : Type := {
  row0 : Z; row1 : Z; col0 : Z; col1 : Z
}.

Definition window_rows (w : window) : Z := row1 w - row0 w.
Definition window_cols (w : window) : Z := col1 w - col0 w.

(** [arr[:, r0:r1, c0:c1]] on an array of the given shape. *)
Definition getitem_window (shp : list Z) (r0 r1 c0 c1 : Z) : result window :=
  match shp with
  | _ :: rows :: cols :: _ =>
      let '(ra, rb) := Py.slice_bounds rows r0 r1 in
      let '(ca, cb) := Py.slice_bounds cols c0 c1 in
      Ok {| row0 := ra; row1 := rb; col0 := ca; col1 := cb |}
  | _ => Raise IndexError
  end.

Section DaskImage.
Context {V M : Type} {HM : DaskMeta V M} {HD : DaskLibrary}.

(** [DaskMeta.infect]: the array is a dask array by construction, so the
    first assertion cannot fail; the second tests the number of axes. *)
Definition infect (self : M) (target : DaskImage V M) : result (DaskImage V M) :=
  _ ← py_assert (bool_decide (length (arr_shape target) ∈ [2%nat; 3%nat]))
        "target must be a dask array with 2 or 3 dimensions" [];
  Ok {| arr_dask := arr_dask target; arr_name := arr_name target;
        arr_chunks := arr_chunks target; arr_dtype := arr_dtype target;
        arr_daskmeta := Some self |}.

(** [da.Array.__new__] under the array plugins in force: the chunks are
    normalized against the shape, a dtype of [None] is refused and any
    other is handed to [np.dtype], the new array stores the graph, the
    name, the normalized chunks and the data type, then every plugin is
    applied to it in turn. *)
Definition Array_new (plugins : list (DaskImage V M -> result (DaskImage V M)))
    (dsk : gmap key V) (nm : string) (chk : list Z) (dt : option string)
    (shp : list Z) : result (DaskImage V M) :=
  chunks ← normalize_chunks chk shp;
  dt ← match dt with Some dt => Ok dt | None => Raise ValueError end;
  dt ← np_dtype dt;
  foldl (fun acc plugin => self ← acc; plugin self)
        (Ok {| arr_dask := dsk; arr_name := nm; arr_chunks := chunks;
               arr_dtype := dt; arr_daskmeta := None |})
        plugins.

(** [DaskImage.create]: inside [dask.set_options(array_plugins=[dm.infect])]
    the only plugin in force is [dm.infect]. *)
Definition create (arg : pyarg M) : result (DaskImage V M) :=
  match arg with
  | OtherObject =>
      Raise (AssertionError "argument must be an instance of a DaskMeta subclass" [])
  | DaskMetaInstance dm =>
      Array_new [infect dm] (dask dm) (name dm) (chunks dm) (dtype dm) (shape dm)
  end.

End DaskImage.

(** [DaskImage.randwindow]: the window is returned for every pair of
    draws; the outcomes are equally likely. *)
Definition randwindow (self_shape : list Z) (window_shape : list Z)
  : result (dist (result window)) :=
  w0 ← Py.index window_shape 0;
  s1 ← Py.index self_shape 1;
  rows ← random.randrange w0 s1;
  w1 ← Py.index window_shape 1;
  s2 ← Py.index self_shape 2;
  cols ← random.randrange w1 s2;
  Ok (dist_bind rows (fun row =>
      dist_bind cols (fun col =>
        [getitem_window self_shape (row - w0) row (col - w0) col]))).


(** [DaskImage.iterwindows] with a count: [count] independent windows
    ([xrange(count)] is empty for a count below one). *)
Definition iterwindows (self_shape : list Z) (count : Z) (window_shape : list Z)
  : list (result (dist (result window))) :=
  (fun _ => randwindow self_shape window_shape) <$> Py.xrange count.

(** ** Numbers *)

(** The coordinates of geometries and the pixel positions of the
    geometry layer are carried as exact rationals.  The arithmetic of
    [warp] is done in binary64, see [float64] below; a number enters it
    as the float nearest to the rational it is given by. *)
Definition point : Type := (Q * Q)%type.

(** [int(q)]: truncation toward zero. *)
Definition Qint (q : Q) : Z := Z.quot (Qnum q) (Z.pos (Qden q)).

(** A rational that is a whole number. *)
Definition is_integer (q : Q) : Prop := (inject_Z (Qfloor q) == q)%Q.

(** ** Geometries (shapely) *)

(** A geometry is held by its type tag and the sequence of its
    coordinates (for a polygon, those of its exterior ring); GeoJSON-like
    mappings carry the same two items under ["type"] and ["coordinates"]. *)
Record geometry : Type := {
  geom_type : string;
  coords : list point
}.

Record geojson : Type := {
  gj_type : string;
  gj_coordinates : list point
}.

Module shapely.

Definition mapping (g : geometry) : geojson :=
  {| gj_type := geom_type g; gj_coordinates := coords g |}.

Definition shape (context : geojson) : geometry :=
  {| geom_type := gj_type context; coords := gj_coordinates context |}.

(** [g.bounds]: [(minx, miny, maxx, maxy)], the empty tuple for an empty
    geometry. *)
Definition bounds (g : geometry) : list Q :=
  match coords g with
  | [] => []
  | p :: ps =>
      [ foldl Qmin (fst p) (fst <$> ps); foldl Qmin (snd p) (snd <$> ps);
        foldl Qmax (fst p) (fst <$> ps); foldl Qmax (snd p) (snd <$> ps) ]
  end.

(** [box(minx, miny, maxx, maxy, ccw)]. *)
Definition box (minx miny maxx maxy : Q) (ccw : bool) : geometry :=
  let ring := [(maxx, miny); (maxx, maxy); (minx, maxy); (minx, miny)] in
  let ring := if ccw then ring else reverse ring in
  {| geom_type := "Polygon";
     coords := ring ++ match ring with p :: _ => [p] | [] => [] end |}.

(** [box( *args )]: four positional arguments, or five with [ccw];
    any other number is a [TypeError]. *)
Definition box_star (args : list Q) : result geometry :=
  match args with
  | [minx; miny; maxx; maxy] => Ok (box minx miny maxx maxy true)
  | [minx; miny; maxx; maxy; ccw] =>
      Ok (box minx miny maxx maxy (negb (Qeq_bool ccw 0)))
  | _ => Raise TypeError
  end.

End shapely.

(** The predicate [contains] and the WKT reader are shapely's own. *)
Class Shapely : Type := {
  contains : geometry -> geometry -> bool;
  wkt_loads : string -> result geometry
}.

Module ops.

(** [ops.transform(func, geom)]: [func] applied to every coordinate. *)
Definition transform (func : Q -> Q -> result point) (geom : geometry)
  : result geometry :=
  cs ← mapM (fun p => func (fst p) (snd p)) (coords geom);
  Ok {| geom_type := geom_type geom; coords := cs |}.

End ops.

(** [pyproj.transform(Proj(init=p1), Proj(init=p2), x, y)]. *)
Class Pyproj : Type := {
  pyproj_transform : string -> string -> Q -> Q -> result point
}.

(** ** Affine matrices (the affine package) *)

Record Affine : Type := {
  af_a : Q; af_b : Q; af_c : Q;
  af_d : Q; af_e : Q; af_f : Q
}.

Module affine.

Definition from_gdal (c a b f d e : Q) : Affine :=
  {| af_a := a; af_b := b; af_c := c; af_d := d; af_e := e; af_f := f |}.

Definition translation (xoff yoff : Q) : Affine :=
  {| af_a := 1; af_b := 0; af_c := xoff; af_d := 0; af_e := 1; af_f := yoff |}.

Definition determinant (t : Affine) : Q :=
  (af_a t * af_e t - af_b t * af_d t)%Q.

(** The matrix [~t] of a transform that is not degenerate. *)
Definition inverse (t : Affine) : Affine :=
  let idet := (1 / determinant t)%Q in
  let ra := (af_e t * idet)%Q in
  let rb := (- af_b t * idet)%Q in
  let rd := (- af_d t * idet)%Q in
  let re := (af_a t * idet)%Q in
  {| af_a := ra; af_b := rb; af_c := (- af_c t * ra - af_f t * rb)%Q;
     af_d := rd; af_e := re; af_f := (- af_c t * rd - af_f t * re)%Q |}.

(** [~t]. *)
Definition invert (t : Affine) : result Affine :=
  if Qeq_bool (determinant t) 0 then Raise TransformNotInvertibleError
  else Ok (inverse t).

(** [t * (vx, vy)] for two numbers. *)
Definition apply (t : Affine) (vx vy : Q) : point :=
  ((vx * af_a t + vy * af_b t + af_c t)%Q, (vx * af_d t + vy * af_e t + af_f t)%Q).

(** [t * v] for a tuple [v]: it must unpack into two numbers. *)
Definition mul_tuple (t : Affine) (v : list Q) : result point :=
  match v with
  | [vx; vy] => Ok (apply t vx vy)
  | _ => Raise TypeError
  end.

(** [t * u] for two matrices. *)
Definition mul (t u : Affine) : Affine :=
  {| af_a := (af_a t * af_a u + af_b t * af_d u)%Q;
     af_b := (af_a t * af_b u + af_b t * af_e u)%Q;
     af_c := (af_a t * af_c u + af_b t * af_f u + af_c t)%Q;
     af_d := (af_d t * af_a u + af_e t * af_d u)%Q;
     af_e := (af_d t * af_b u + af_e t * af_e u)%Q;
     af_f := (af_d t * af_c u + af_e t * af_f u + af_f t)%Q |}.

(** Equality of matrices as numbers (fractions need not be reduced). *)
Definition equiv (t u : Affine) : Prop :=
  (af_a t == af_a u /\ af_b t == af_b u /\ af_c t == af_c u /\
   af_d t == af_d u /\ af_e t == af_e u /\ af_f t == af_f u)%Q.

End affine.

(** ** The transform object of an image *)

(** What [GeoImage] asks of [__geo_transform__]: the reverse mapping
    from geographic to pixel coordinates, the projection, and [+] with a
    pair of pixel offsets. *)
Class GeoTransform (T : Type) : Type := {
  rev : T -> Q -> Q -> result point;
  proj_of : T -> option string;
  add_offset : T -> Q -> Q -> T
}.

(** Modelled from the spec: the affine transform object (class
    AffineTransform of gbdxtools.ipe.util, not part of this module).  It
    holds a six-parameter affine matrix from pixel to geographic
    coordinates and a projection; its reverse mapping applies the
    inverse matrix, and adding a pixel offset yields "the original
    transform translated by the window's pixel offset (translation
    composition, not reprojection)". *)
Record AffineTransform : Type := {
  _affine : Affine;
  at_proj : option string
}.

#[global] Instance AffineTransform_GeoTransform : GeoTransform AffineTransform := {
  rev t x y := iaffine ← affine.invert (_affine t); Ok (affine.apply iaffine x y);
  proj_of := at_proj;
  add_offset t dx dy :=
    {| _affine := affine.mul (_affine t) (affine.translation dx dy);
       at_proj := at_proj t |}
}.

(** ** GeoImage *)

(** The part of an image the geometry layer works on: the shape of its
    array and the geo-context, [__geo_interface__] and
    [__geo_transform__]. *)
Record GeoImage (T : Type) : Type := {
  im_shape : list Z;
  __geo_interface__ : geojson;
  __geo_transform__ : T
}.
Arguments im_shape {T} _.
Arguments __geo_interface__ {T} _.
Arguments __geo_transform__ {T} _.

(** Values passed by keyword to [aoi]. *)
Inductive pyval : Type :=
  | PyNone
  | PyFloats (l : list Q)
  | PyStr (s : string)
  | PyMapping (m : geojson).

Definition is_not_None (v : pyval) : bool :=
  match v with PyNone => false | _ => true end.

(** [kwargs.get(k, dflt)]. *)
Definition kwargs_get {A} (kwargs : gmap string A) (k : string) (dflt : A) : A :=
  default dflt (kwargs !! k).

(** An index of an array slice must be integer valued. *)
Definition sanitize_index (q : Q) : result Z :=
  if Qeq_bool (inject_Z (Qint q)) q then Ok (Qint q) else Raise IndexError.

(** Shape of [arr[:, y0:y1, x0:x1]]. *)
Definition array_getitem (shp : list Z) (y0 y1 x0 x1 : Q) : result (list Z) :=
  r0 ← sanitize_index y0;
  r1 ← sanitize_index y1;
  c0 ← sanitize_index x0;
  c1 ← sanitize_index x1;
  w ← getitem_window shp r0 r1 c0 c1;
  match shp with
  | bands :: _ :: _ :: rest => Ok (bands :: window_rows w :: window_cols w :: rest)
  | _ => Raise IndexError
  end.

Definition _default_proj : string := "EPSG:4326".

(** What a method call hands back: the object the method returned, as it
    is, or a new object built from it. *)
Inductive returned (A : Type) : Type :=
  | Same (a : A)
  | Rebuilt (a : A).
Arguments Same {A} a.
Arguments Rebuilt {A} a.

Section GeoImage.
Context {T : Type} {HS : Shapely} {HP : Pyproj} {HT : GeoTransform T}.

(** The [bounds] property: [shape(self).bounds]. *)
Definition bounds (self : GeoImage T) : list Q :=
  shapely.bounds (shapely.shape (__geo_interface__ self)).

(** The [proj] property. *)
Definition proj (self : GeoImage T) : option string :=
  proj_of (__geo_transform__ self).

Definition __contains__ (self : GeoImage T) (g : geometry) : result bool :=
  geometry ← ops.transform (rev (__geo_transform__ self)) g;
  img_bounds ← shapely.box_star
                 ([0%Q; 0%Q] ++ (inject_Z <$> Py.slice_rev (im_shape self) 2 0));
  Ok (contains img_bounds geometry).

Definition __getitem__ (self : GeoImage T) (geom : geometry)
  : result (GeoImage T) :=
  let g := shapely.shape (shapely.mapping geom) in
  inside ← __contains__ self g;
  _ ← py_assert inside
        "Image does not contain specified geometry {} not in {}"
        [shapely.bounds g; bounds self];
  pixels ← ops.transform (rev (__geo_transform__ self)) g;
  let bnds := shapely.bounds pixels in
  b1 ← Py.index bnds 1;
  b3 ← Py.index bnds 3;
  b0 ← Py.index bnds 0;
  b2 ← Py.index bnds 2;
  result_shape ← array_getitem (im_shape self) b1 b3 b0 b2;
  Ok {| im_shape := result_shape;
        __geo_interface__ := shapely.mapping g;
        __geo_transform__ := add_offset (__geo_transform__ self) b0 b1 |}.

Definition _reproject (self : GeoImage T) (geom : geometry)
    (from_proj to_proj : option string) : result geometry :=
  let from_proj := match from_proj with Some p => p | None => _default_proj end in
  let to_proj :=
    match to_proj with
    | Some p => p
    | None => match proj self with Some p => p | None => "EPSG:4326"%string end
    end in
  ops.transform (pyproj_transform from_proj to_proj) geom.

(** The tail of [_parse_geoms], once a geometry [g] has been built. *)
Definition parsed (self : GeoImage T) (kwargs : gmap string pyval) (g : geometry)
  : result (option geometry) :=
  match proj self with
  | None => Ok (Some g)
  | Some _ =>
      from_proj ← match kwargs_get kwargs "from_proj" (PyStr "EPSG:4326") with
                  | PyStr p => Ok (Some p)
                  | PyNone => Ok None
                  | _ => Raise TypeError
                  end;
      Some <$> _reproject self g from_proj None
  end.

Definition _parse_geoms (self : GeoImage T) (kwargs : gmap string pyval)
  : result (option geometry) :=
  let bbox := kwargs_get kwargs "bbox" PyNone in
  let wkt_geom := kwargs_get kwargs "wkt" PyNone in
  let geojson := kwargs_get kwargs "geojson" PyNone in
  if is_not_None bbox then
    g ← match bbox with PyFloats l => shapely.box_star l | _ => Raise TypeError end;
    parsed self kwargs g
  else if is_not_None wkt_geom then
    g ← match wkt_geom with PyStr s => wkt_loads s | _ => Raise TypeError end;
    parsed self kwargs g
  else if is_not_None geojson then
    g ← match geojson with
        | PyMapping m => Ok (shapely.shape m)
        | _ => Raise AttributeError
        end;
    parsed self kwargs g
  else Ok None.

Definition aoi (self : GeoImage T) (kwargs : gmap string pyval)
  : result (GeoImage T) :=
  g ← _parse_geoms self kwargs;
  match g with
  | None => Ok self
  | Some g => __getitem__ self g
  end.

(** [DaskImage.__getattribute__] for the name of a method defined in a
    class of the instance: the method is handed out as [wrapped].  A
    result that is a dask array of two or three axes is built anew from
    its graph, name, chunks, dtype and shape, and the instance dictionary
    of [self], which holds the geo-context, is copied onto the new array;
    any other result is handed back as it is. *)
Definition wrapped (self : GeoImage T) (fn : result (GeoImage T))
  : result (returned (GeoImage T)) :=
  res ← fn;
  if bool_decide (length (im_shape res) ∈ [2%nat; 3%nat]) then
    Ok (Rebuilt {| im_shape := im_shape res;
                   __geo_interface__ := __geo_interface__ self;
                   __geo_transform__ := __geo_transform__ self |})
  else Ok (Same res).

(** The call [img.aoi( **kwargs )]: [aoi] reached through
    [__getattribute__]. *)
Definition aoi_call (self : GeoImage T) (kwargs : gmap string pyval)
  : result (returned (GeoImage T)) :=
  wrapped self (aoi self kwargs).

(** The pixel offset [(bounds[0], bounds[1])] of the window of [g]: the
    lower corner of [g] mapped into pixel space. *)
Definition pixel_offset (self : GeoImage T) (g : geometry) : result point :=
  pixels ← ops.transform (rev (__geo_transform__ self)) g;
  b0 ← Py.index (shapely.bounds pixels) 0;
  b1 ← Py.index (shapely.bounds pixels) 1;
  Ok (b0, b1).

(** [aoi] once the geometry source has been chosen: the geometry is
    built, reprojected when the image is projected, and used to index
    the image. *)
Definition use_geometry (self : GeoImage T) (kwargs : gmap string pyval)
    (built : result geometry) : result (GeoImage T) :=
  g ← built;
  g' ← parsed self kwargs g;
  match g' with Some g' => __getitem__ self g' | None => Ok self end.

End GeoImage.

(** A point lies in the closed box [(minx, miny, maxx, maxy)]. *)
Definition within (bnds : list Q) (p : point) : bool :=
  match bnds with
  | [minx; miny; maxx; maxy] =>
      Qle_bool minx (fst p) && Qle_bool (fst p) maxx &&
      Qle_bool miny (snd p) && Qle_bool (snd p) maxy
  | _ => false
  end.

(** One bounding box lies inside another. *)
Definition bounds_within (inner outer : list Q) : Prop :=
  match inner, outer with
  | [a; b; c; d], [a'; b'; c'; d'] => (a' <= a /\ b' <= b /\ c <= c' /\ d <= d')%Q
  | _, _ => False
  end.

(** ** Python floats *)

(** IEEE binary64, the type of a Python float. *)
Module float64.

Definition prec : Z := 53.
Definition emax : Z := 1024.

Definition of_Z (z : Z) : spec_float := binary_normalize prec emax z 0 false.

(** The float nearest to [n / d], as the decimal literal denotes it. *)
Definition of_ratio (n d : Z) : spec_float := SFdiv prec emax (of_Z n) (of_Z d).

(** The float a number given by a rational stands for: the float itself
    when the rational is the value of one, otherwise the nearest one
    (numerator and denominator within the integers binary64 holds). *)
Definition of_Q (q : Q) : spec_float := of_ratio (Qnum q) (Z.pos (Qden q)).

Definition zero : spec_float := S754_zero false.
Definition one : spec_float := of_Z 1.

Definition add : spec_float -> spec_float -> spec_float := SFadd prec emax.
Definition sub : spec_float -> spec_float -> spec_float := SFsub prec emax.
Definition mul : spec_float -> spec_float -> spec_float := SFmul prec emax.
Definition neg : spec_float -> spec_float := SFopp.

(** [x / y]: a divisor of zero raises. *)
Definition div (x y : spec_float) : result spec_float :=
  match y with
  | S754_zero _ => Raise ZeroDivisionError
  | _ => Ok (SFdiv prec emax x y)
  end.

(** [x == 0.0]. *)
Definition is_zero (x : spec_float) : bool :=
  match x with S754_zero _ => true | _ => false end.

(** [float(z)] for a Python int, as arithmetic of a float with an int
    does it: an int beyond the range of binary64 raises. *)
Definition of_int (z : Z) : result spec_float :=
  match of_Z z with
  | S754_infinity _ => Raise OverflowError
  | x => Ok x
  end.

(** [int(x)]: truncation toward zero; an infinity and a NaN raise. *)
Definition to_int (x : spec_float) : result Z :=
  match x with
  | S754_zero _ => Ok 0
  | S754_finite s m e =>
      let v := Z.shiftl (Z.pos m) e in
      Ok (if s then - v else v)
  | S754_infinity _ => Raise OverflowError
  | S754_nan => Raise ValueError
  end.

(** The rational value of a finite float. *)
Definition to_Q (x : spec_float) : Q :=
  match x with
  | S754_finite s m e =>
      ((if s then -1 else 1) * inject_Z (Z.pos m) * (2 ^ e))%Q
  | _ => 0%Q
  end.

End float64.

(** ** Affine matrices in binary64 (the affine package) *)

(** The six numbers of an [Affine] as the package holds them, Python
    floats. *)
Record Affine64 : Type := {
  sa : spec_float; sb : spec_float; sc : spec_float;
  sd : spec_float; se : spec_float; sf : spec_float
}.

Definition point64 : Type := (spec_float * spec_float)%type.

Module affine64.

(** [Affine.from_gdal(c, a, b, f, d, e)]. *)
Definition from_gdal (c a b f d e : spec_float) : Affine64 :=
  {| sa := a; sb := b; sc := c; sd := d; se := e; sf := f |}.

(** [sa * se - sb * sd]. *)
Definition determinant (t : Affine64) : spec_float :=
  float64.sub (float64.mul (sa t) (se t)) (float64.mul (sb t) (sd t)).

(** [self.determinant == 0.0]. *)
Definition is_degenerate (t : Affine64) : bool :=
  float64.is_zero (determinant t).

(** [~t]. *)
Definition invert (t : Affine64) : result Affine64 :=
  if is_degenerate t then Raise TransformNotInvertibleError
  else
    idet ← float64.div float64.one (determinant t);
    let ra := float64.mul (se t) idet in
    let rb := float64.mul (float64.neg (sb t)) idet in
    let rd := float64.mul (float64.neg (sd t)) idet in
    let re := float64.mul (sa t) idet in
    Ok {| sa := ra; sb := rb;
          sc := float64.sub (float64.mul (float64.neg (sc t)) ra)
                            (float64.mul (sf t) rb);
          sd := rd; se := re;
          sf := float64.sub (float64.mul (float64.neg (sc t)) rd)
                            (float64.mul (sf t) re) |}.

(** [t * (vx, vy)]: [(vx * sa + vy * sb + sc, vx * sd + vy * se + sf)]. *)
Definition apply (t : Affine64) (vx vy : spec_float) : point64 :=
  (float64.add (float64.add (float64.mul vx (sa t)) (float64.mul vy (sb t))) (sc t),
   float64.add (float64.add (float64.mul vx (sd t)) (float64.mul vy (se t))) (sf t)).

(** [t * v] for a tuple [v]: it must unpack into two numbers. *)
Definition mul_tuple (t : Affine64) (v : list spec_float) : result point64 :=
  match v with
  | [vx; vy] => Ok (apply t vx vy)
  | _ => Raise TypeError
  end.

End affine64.

(** A polygon whose coordinates are Python floats, and [box] on four
    floats (counter-clockwise, as [shapely.box] above). *)
Record geometry64 : Type := {
  geom64_type : string;
  coords64 : list point64
}.

Definition box64 (minx miny maxx maxy : spec_float) : geometry64 :=
  {| geom64_type := "Polygon";
     coords64 := [(maxx, miny); (maxx, maxy); (minx, maxy); (minx, miny);
                  (maxx, miny)] |}.

(** ** warp: the tile graph *)

(** The ["image"] record of the metadata provider. *)
Record image_metadata : Type := {
  imageId : string;
  tileXSize : Z;
  tileYSize : Z;
  numBands : Z;
  dataType : string;
  minTileX : Z;
  minTileY : Z
}.

(** An image with its metadata provider: [self.ipe_id],
    [self.ipe.metadata["image"]] and [self.ipe.metadata["rpcs"]["gsd"]]. *)
Record IpeImage (T : Type) : Type := {
  ipe_geo : GeoImage T;
  ipe_id : string;
  ipe_metadata_image : image_metadata;
  ipe_metadata_rpcs_gsd : Q
}.
Arguments ipe_geo {T} _.
Arguments ipe_id {T} _.
Arguments ipe_metadata_image {T} _.
Arguments ipe_metadata_rpcs_gsd {T} _.

(** [self.__class__(image_id, product='1b')]: the full source product. *)
Class IpeCatalog (T : Type) : Type := {
  open_1b : string -> IpeImage T
}.

(** The data-type table of gbdxtools.ipe.util. *)
Class IpeUtil : Type := {
  IPE_TO_DTYPE : gmap string string
}.

Inductive dem_t : Type :=
  | DemNumber (z : Q)
  | DemArray (a : list (list Q)).

Definition rpcs_t : Type := gmap string (list Q).

(** The deferred task [(im_full.warp_geometry, geometry, dem, rpcs, proj,
    gsd)]; the bound method is held by the id of the image it is bound
    to, [gsd] is the number as it was given. *)
Record warp_task : Type := {
  task_warp_geometry_of : string;
  task_geometry : geometry64;
  task_dem : dem_t;
  task_rpcs : option rpcs_t;
  task_proj : option string;
  task_gsd : Q
}.

(** What [GeoDaskWrapper.__new__] returns: the created array and the
    geo-context copied from [img]. *)
Record GeoDaskWrapper (T : Type) : Type := {
  gdw_array : DaskImage warp_task (daskmeta_dict warp_task);
  gdw_geo_interface : geojson;
  gdw_geo_transform : T
}.
Arguments gdw_array {T} _.
Arguments gdw_geo_interface {T} _.
Arguments gdw_geo_transform {T} _.

Definition GeoDaskWrapper__new__ {T} {HD : DaskLibrary}
    (daskmeta : daskmeta_dict warp_task) (img : GeoImage T)
  : result (GeoDaskWrapper T) :=
  self ← create (DaskMetaInstance daskmeta);
  Ok {| gdw_array := self;
        gdw_geo_interface := __geo_interface__ img;
        gdw_geo_transform := __geo_transform__ img |}.

Section Warp.
Context {T : Type} {HC : IpeCatalog T} {HU : IpeUtil} {HD : DaskLibrary}.

(** The transform of [warp] and the two pixel corners of the image:
    [gtf], [ll] and [ur]. *)
Definition warp_corners (self : IpeImage T) (kwargs : gmap string Q)
  : result (Affine64 * point64 * point64) :=
  let img_md := ipe_metadata_image self in
  let im_full := open_1b (imageId img_md) in
  let gsd := float64.of_Q (kwargs_get kwargs "gsd" (ipe_metadata_rpcs_gsd im_full)) in
  x0 ← Py.index (bounds (ipe_geo im_full)) 0;
  y0 ← Py.index (bounds (ipe_geo im_full)) 3;
  let gtf := affine64.from_gdal (float64.of_Q x0) gsd float64.zero
               (float64.of_Q y0) float64.zero
               (float64.mul (float64.of_Z (-1)) gsd) in
  igtf ← affine64.invert gtf;
  ll ← affine64.mul_tuple igtf (float64.of_Q <$> Py.slice_to (bounds (ipe_geo self)) 2);
  ur ← affine64.mul_tuple igtf (float64.of_Q <$> Py.slice_from (bounds (ipe_geo self)) 2);
  Ok (gtf, ll, ur).

(** [extent / size] for a float extent and an int tile size. *)
Definition tile_quotient (extent : spec_float) (size : Z) : result spec_float :=
  sz ← float64.of_int size;
  float64.div extent sz.

(** The tile counts of [warp]: [int(extent / size) + 1]. *)
Definition chunk_count (extent : spec_float) (size : Z) : result Z :=
  q ← tile_quotient extent size;
  n ← float64.to_int q;
  Ok (n + 1).

(** The inner function [px_to_geom] of [warp]. *)
Definition px_to_geom (img_md : image_metadata) (gtf : Affine64)
    (xmin ymin : spec_float) : result geometry64 :=
  tw ← float64.of_int (tileXSize img_md);
  xmax ← float64.to_int (float64.add xmin tw);
  th ← float64.of_int (tileYSize img_md);
  ymax ← float64.to_int (float64.add ymin th);
  ymax' ← float64.of_int ymax;
  let p := affine64.apply gtf xmin ymax' in
  xmax' ← float64.of_int xmax;
  let q := affine64.apply gtf xmax' ymin in
  Ok (box64 (fst p) (snd p) (fst q) (snd q)).

(** The task stored for the tile at loop indices [(y, x)]. *)
Definition warp_tile (img_md : image_metadata) (im_full_id : string)
    (gtf : Affine64) (ll ur : point64)
    (dem : dem_t) (rpcs : option rpcs_t) (prj : option string) (gsd : Q)
    (y x : Z) : result warp_task :=
  xoff ← float64.of_int (x * tileXSize img_md);
  let xmin := float64.add (fst ll) xoff in
  yoff ← float64.of_int (y * tileYSize img_md);
  let ymin := float64.add (snd ur) yoff in
  geom ← px_to_geom img_md gtf xmin ymin;
  Ok {| task_warp_geometry_of := im_full_id; task_geometry := geom;
        task_dem := dem; task_rpcs := rpcs; task_proj := prj;
        task_gsd := gsd |}.

(** The two nested loops of [warp] filling [daskmeta["dask"]]. *)
Definition warp_tiles (img_md : image_metadata) (im_full_id : string)
    (gtf : Affine64) (ll ur : point64) (nm : string) (x_chunks y_chunks : Z)
    (dem : dem_t) (rpcs : option rpcs_t) (prj : option string) (gsd : Q)
  : result (gmap key warp_task) :=
  Py.for_each (fun dsk y =>
    Py.for_each (fun dsk x =>
      task ← warp_tile img_md im_full_id gtf ll ur dem rpcs prj gsd y x;
      Ok (<[ (nm, 0, y - minTileY img_md, x - minTileX img_md) := task ]> dsk))
      dsk (Py.xrange x_chunks))
    ∅ (Py.xrange y_chunks).

(** [warp], the body of the method.  Called as [img.warp(...)] the array
    it returns is rebuilt by the wrapper of [DaskImage.__getattribute__]
    from the same graph, name, chunks, dtype and shape. *)
Definition warp (self : IpeImage T) (dem : dem_t) (rpcs : option rpcs_t)
    (prj : option string) (kwargs : gmap string Q) : result (GeoDaskWrapper T) :=
  let img_md := ipe_metadata_image self in
  let im_full := open_1b (imageId img_md) in
  let x_size := tileXSize img_md in
  let y_size := tileYSize img_md in
  let gsd := kwargs_get kwargs "gsd" (ipe_metadata_rpcs_gsd im_full) in
  '(gtf, ll, ur) ← warp_corners self kwargs;
  x_chunks ← chunk_count (float64.sub (fst ur) (fst ll)) x_size;
  y_chunks ← chunk_count (float64.sub (snd ll) (snd ur)) y_size;
  dt ← match IPE_TO_DTYPE !! dataType img_md with
       | Some dt => Ok dt
       | None => Raise KeyError
       end;
  let nm := ("warp-" ++ ipe_id self)%string in
  tiles ← warp_tiles img_md (ipe_id im_full) gtf ll ur nm x_chunks y_chunks
            dem rpcs prj gsd;
  let daskmeta :=
    {| da_dask := tiles;
       da_chunks := [numBands img_md; y_size; x_size];
       da_dtype := Some dt;
       da_name := nm;
       da_shape := [numBands img_md; y_chunks * y_size; x_chunks * x_size] |} in
  GeoDaskWrapper__new__ daskmeta (ipe_geo self).

End Warp.

(** ** PlotMixin: band arithmetic *)

(** IEEE binary32, the element type after [astype(np.float32)]. *)
Module float32.

Definition prec : Z := 24.
Definition emax : Z := 128.

Definition add : spec_float -> spec_float -> spec_float := SFadd prec emax.
Definition sub : spec_float -> spec_float -> spec_float := SFsub prec emax.
Definition div : spec_float -> spec_float -> spec_float := SFdiv prec emax.

(** Rounding of a binary float of any width to binary32. *)
Definition of_float (x : spec_float) : spec_float :=
  match x with
  | S754_finite s m e => binary_round prec emax s m e
  | _ => x
  end.

(** Conversion of an integer sample. *)
Definition of_Z (z : Z) : spec_float := binary_normalize prec emax z 0 false.

(** The rational value of a finite float. *)
Definition to_Q (x : spec_float) : Q :=
  match x with
  | S754_finite s m e =>
      ((if s then -1 else 1) * inject_Z (Z.pos m) * (2 ^ e))%Q
  | _ => 0%Q
  end.

End float32.

(** [astype(np.float32)] on one sample of the image's own element type. *)
Class AsType (A : Type) : Type := {
  astype_float32 : A -> spec_float
}.

#[global] Instance float_AsType : AsType spec_float := {
  astype_float32 := float32.of_float
}.
#[global] Instance int_AsType : AsType Z := {
  astype_float32 := float32.of_Z
}.

(** One band: rows of samples. *)
Abbreviation band A := (list (list A)) (only parsing).

(** An elementwise operation on two bands of one shape. *)
Definition elementwise {A B C} (op : A -> B -> C) (x : band A) (y : band B)
  : band C :=
  zip_with (zip_with op) x y.

(** A band holding one value everywhere. *)
Definition uniform {A} (rows cols : nat) (v : A) : list (list A) :=
  replicate rows (replicate cols v).

(** [(a - b) / (a + b)] on two binary32 samples. *)
Definition normalized_difference (a b : spec_float) : spec_float :=
  float32.div (float32.sub a b) (float32.add a b).

Definition _ndvi_bands : list nat := [6%nat; 4%nat].

Section PlotMixin.
Context {A : Type} {HA : AsType A}.

(** [self[bands, ...]] followed by the read: the selected bands, in the
    order of the selectors. *)
Definition astype_band (x : band A) : band spec_float :=
  fmap (M := list) (fmap (M := list) astype_float32) x.

Definition read_bands (self : list (band A)) (bands : list nat)
  : result (list (band A)) :=
  mapM (Py.index self) bands.

Definition ndvi (self : list (band A)) : result (band spec_float) :=
  raw ← read_bands self _ndvi_bands;
  let data := fmap (M := list) astype_band raw in
  d0 ← Py.index data 0;
  d1 ← Py.index data 1;
  Ok (elementwise float32.div (elementwise float32.sub d0 d1)
                              (elementwise float32.add d0 d1)).

End PlotMixin.

(** ** DaskImage.read *)

(** [DaskImage.read]: the array is held by the data it computes to, one
    item per band; [bands] is [None] or a list of band indices counted
    from zero, and [self[bands, ...]] selects them in the order given. *)
Definition read {A} (self : list (band A)) (bands : option (list nat))
  : result (list (band A)) :=
  match bands with
  | None => Ok self
  | Some bands => read_bands self bands
  end.

(** ** A concrete setting

    Stand-ins for the collaborators and a few images, used to run the
    definitions on explicit inputs. *)

(** A geometry is inside a box when it is not empty and every one of its
    coordinates lies in the box; for a polygon of positive area this is
    what shapely's [contains] answers. *)
Definition vertex_contains (a b : geometry) : bool :=
  match coords b with
  | [] => false
  | _ => forallb (within (shapely.bounds a)) (coords b)
  end.

Definition wkt_table : gmap string geometry :=
  {[ "POINT (1 1)"%string := {| geom_type := "Point"; coords := [(1%Q, 1%Q)] |} ]}.

Definition example_Shapely : Shapely := {|
  contains := vertex_contains;
  wkt_loads := fun s =>
    match wkt_table !! s with Some g => Ok g | None => Raise ValueError end
|}.

(** A stand-in for [normalize_chunks] on one block size per axis, for
    block sizes above zero and extents that are not negative: an axis of
    extent [d] in blocks of [bd] has [d // bd] blocks of [bd] and one block
    with the remainder, an axis of extent zero has one block of zero;
    chunks and shape of different lengths are refused. *)
Definition blockdims (d bd : Z) : list Z :=
  if d =? 0 then [0]
  else replicate (Z.to_nat (d / bd)) bd ++ (if d mod bd =? 0 then [] else [d mod bd]).

(** Some names of data types and the data types they stand for. *)
Definition numpy_names : gmap string string :=
  {[ "float32"%string := "float32"%string; "float64"%string := "float64"%string;
     "uint8"%string := "uint8"%string; "byte"%string := "int8"%string;
     "short"%string := "int16"%string; "ushort"%string := "uint16"%string ]}.

Definition example_Dask : DaskLibrary := {|
  normalize_chunks := fun chk shp =>
    if bool_decide (length chk = length shp) &&
       forallb (fun bd => 0 <? bd) chk && forallb (fun d => 0 <=? d) shp
    then Ok (zip_with blockdims shp chk)
    else Raise ValueError;
  np_dtype := fun s =>
    match numpy_names !! s with
    | Some d => Ok d
    | None => Raise TypeError
    end
|}.

(** Every example lives in one projection. *)
Definition example_Pyproj : Pyproj := {|
  pyproj_transform := fun _ _ x y => Ok (x, y)
|}.

(** Geographic coordinates equal to pixel coordinates. *)
Definition pixel_grid : AffineTransform :=
  {| _affine := affine.from_gdal 0 1 0 0 0 1; at_proj := None |}.

(** One band of ten rows and ten columns. *)
Definition ex_image : GeoImage AffineTransform :=
  {| im_shape := [1; 10; 10];
     __geo_interface__ := shapely.mapping (shapely.box 0 0 10 10 true);
     __geo_transform__ := pixel_grid |}.

Definition ex_g1 : geometry := shapely.box 2 3 8 9 true.
Definition ex_g2 : geometry := shapely.box 4 5 6 7 true.
Definition ex_outside : geometry := shapely.box 10 10 12 12 true.

(** [ex_image[ex_g1]] and [ex_image[ex_g1][ex_g2]]. *)
Definition ex_clip1 : GeoImage AffineTransform :=
  {| im_shape := [1; 6; 6];
     __geo_interface__ := shapely.mapping ex_g1;
     __geo_transform__ := add_offset pixel_grid 2 3 |}.

Definition ex_clip2 : GeoImage AffineTransform :=
  {| im_shape := [1; 2; 2];
     __geo_interface__ := shapely.mapping ex_g2;
     __geo_transform__ := add_offset (add_offset pixel_grid 2 3) 2 2 |}.

(** A two-axis image of four rows and six columns. *)
Definition ex_image_2d : GeoImage AffineTransform :=
  {| im_shape := [4; 6];
     __geo_interface__ := shapely.mapping (shapely.box 0 0 6 4 true);
     __geo_transform__ := pixel_grid |}.

(** A source product of 512 by 512 pixels at a ground sample distance
    of one, tiled by 256, and an image over the given geographic box. *)
Definition ex_metadata (min_tile_x min_tile_y : Z) : image_metadata :=
  {| imageId := "1040010000000000"; tileXSize := 256; tileYSize := 256;
     numBands := 8; dataType := "FLOAT";
     minTileX := min_tile_x; minTileY := min_tile_y |}.

Definition north_up : AffineTransform :=
  {| _affine := affine.from_gdal 0 1 0 512 0 (-1); at_proj := Some "EPSG:4326"%string |}.

Definition ex_ipe (min_tile_x min_tile_y : Z) (rows cols : Z) (footprint : geometry)
  : IpeImage AffineTransform :=
  {| ipe_geo := {| im_shape := [8; rows; cols];
                   __geo_interface__ := shapely.mapping footprint;
                   __geo_transform__ := north_up |};
     ipe_id := "1040010000000000";
     ipe_metadata_image := ex_metadata min_tile_x min_tile_y;
     ipe_metadata_rpcs_gsd := 1 |}.

Definition ex_full (min_tile_x min_tile_y : Z) : IpeImage AffineTransform :=
  ex_ipe min_tile_x min_tile_y 512 512 (shapely.box 0 0 512 512 true).

Definition ex_aoi (min_tile_x min_tile_y : Z) : IpeImage AffineTransform :=
  ex_ipe min_tile_x min_tile_y 200 300 (shapely.box 0 312 300 512 true).

(** An image 76.8 units wide and 200 high, for a ground sample distance
    of 0.3. *)
Definition ex_narrow : IpeImage AffineTransform :=
  ex_ipe 0 0 667 256 (shapely.box 0 312 (768 # 10) 512 true).

Definition example_catalog (min_tile_x min_tile_y : Z) : IpeCatalog AffineTransform := {|
  open_1b := fun _ => ex_full min_tile_x min_tile_y
|}.

Definition example_util : IpeUtil := {|
  IPE_TO_DTYPE := {[ "FLOAT"%string := "float32"%string ]}
|}.

(** Two metadata dictionaries for an array of shape [(8, 256, 512)]: one
    with a block size for every axis, one with two block sizes only. *)
Definition ex_daskmeta : daskmeta_dict warp_task :=
  {| da_dask := ∅; da_chunks := [8; 256; 256]; da_dtype := Some "float32"%string;
     da_name := "image"; da_shape := [8; 256; 512] |}.

Definition ex_daskmeta_short : daskmeta_dict warp_task :=
  {| da_dask := ∅; da_chunks := [256; 256]; da_dtype := Some "float32"%string;
     da_name := "image"; da_shape := [8; 256; 512] |}.

(** The first one with the name of a data type as the metadata service
    gives it, which is not a name numpy knows. *)
Definition ex_daskmeta_named : daskmeta_dict warp_task :=
  {| da_dask := ∅; da_chunks := [8; 256; 256]; da_dtype := Some "FLOAT"%string;
     da_name := "image"; da_shape := [8; 256; 512] |}.

(** Eight bands of one shape, band 6 at 0.8 and band 4 at 0.2. *)
Definition ex_bands (rows cols : nat) : list (band spec_float) :=
  let zero := uniform rows cols (float64.of_Z 0) in
  [zero; zero; zero; zero; uniform rows cols (float64.of_ratio 1 5); zero;
   uniform rows cols (float64.of_ratio 4 5); zero].

(** * Properties *)

(** ** Results and assertions *)

Lemma bind_Ok {A B} (m : result A) (f : A -> result B) (b : B) :
  m ≫= f = Ok b <-> exists a, m = Ok a /\ f a = Ok b.
Proof.
  destruct m as [a|e]; cbn; split.
  - eauto.
  - intros (a' & [= <-] & ?). done.
  - discriminate.
  - intros (a' & [=] & _).
Qed.

Lemma py_assert_Ok c t a u : py_assert c t a = Ok u <-> c = true.
Proof. destruct c; cbn; split; try done. by destruct u. Qed.

(** Peels the successful binds off a hypothesis [m ≫= f = Ok b]. *)
Ltac inv_bind H :=
  repeat match type of H with
  | _ ≫= _ = Ok _ =>
      let a := fresh "a" in
      let Ha := fresh "Ha" in
      apply bind_Ok in H as (a & Ha & H)
  end.

Lemma Ok_exists {A} (r : result A) (P : A -> Prop) :
  match r with Ok a => P a | Raise _ => False end -> exists a, r = Ok a /\ P a.
Proof. destruct r as [a|e]; [eauto | done]. Qed.

Lemma index_Ok {A} (t : list A) i a : t !! i = Some a -> Py.index t i = Ok a.
Proof. unfold Py.index. by intros ->. Qed.

Lemma index_Raise {A} (t : list A) i :
  t !! i = None -> Py.index t i = Raise IndexError.
Proof. unfold Py.index. by intros ->. Qed.

Lemma mapM_Ok_length {A B} (f : A -> result B) l : forall l',
  mapM f l = Ok l' -> length l' = length l.
Proof.
  induction l as [|x l IH]; intros l' Hl; cbn in Hl.
  - by injection Hl as <-.
  - inv_bind Hl. injection Hl as <-. cbn. f_equal. by apply IH.
Qed.

(** ** DaskImage.create *)

Section CreateProperties.
Context {V M : Type} {HM : DaskMeta V M} {HD : DaskLibrary}.

(** [create] on an instance: the constructor of dask, then [infect]. *)
Lemma create_instance (dm : M) :
  create (DaskMetaInstance dm) =
    (ch ← normalize_chunks (chunks dm) (shape dm);
     dt ← match dtype dm with Some dt => Ok dt | None => Raise ValueError end;
     dt ← np_dtype dt;
     infect dm {| arr_dask := dask dm; arr_name := name dm; arr_chunks := ch;
                  arr_dtype := dt; arr_daskmeta := None |}).
Proof.
  cbn. unfold Array_new.
  destruct (normalize_chunks (chunks dm) (shape dm)) as [ch|e]; [|done]. cbn.
  destruct (dtype dm) as [dt|]; [|done]. cbn.
  destruct (np_dtype dt) as [d|e]; done.
Qed.

Lemma infect_cases (dm : M) (target : DaskImage V M) :
  (length (arr_chunks target) ∈ [2%nat; 3%nat] ->
     infect dm target =
       Ok {| arr_dask := arr_dask target; arr_name := arr_name target;
             arr_chunks := arr_chunks target; arr_dtype := arr_dtype target;
             arr_daskmeta := Some dm |})
  /\ (length (arr_chunks target) ∉ [2%nat; 3%nat] ->
        infect dm target =
          Raise (AssertionError "target must be a dask array with 2 or 3 dimensions" [])).
Proof.
  unfold infect, arr_shape. rewrite length_fmap. split; intros Hl.
  - by rewrite bool_decide_eq_true_2.
  - by rewrite bool_decide_eq_false_2.
Qed.


End CreateProperties.


(** ** DaskImage.randwindow *)

Lemma clip_inside n i : 0 <= i <= n -> Py.clip n i = i.
Proof. intros Hi. unfold Py.clip. destruct (Z.ltb_spec i 0); lia. Qed.

(** The windows [randwindow] can return when the row extent of the
    requested window does not exceed its column extent: the row extent is
    used for both axes, and no window reaches the last row or column. *)
Lemma randwindow_outcomes (b n m r c : Z) :
  0 < r -> r <= c -> r < n -> c < m ->
  exists outcomes,
    randwindow [b; n; m] [r; c] = Ok outcomes /\
    length outcomes = (Z.to_nat (n - r) * Z.to_nat (m - c))%nat /\
    Forall (fun o => exists w, o = Ok w /\ window_rows w = r /\ window_cols w = r
                               /\ row1 w < n /\ col1 w < m) outcomes.
Proof.
  intros Hr Hrc Hn Hm. unfold randwindow, random.randrange. cbn.
  destruct (Z.ltb_spec r n); [|lia]. cbn.
  destruct (Z.ltb_spec c m); [|lia]. cbn.
  eexists. split; [reflexivity|]. split.
  - unfold dist_bind.
    generalize (seqZ c (m - c)) (length_seqZ c (m - c)).
    generalize (seqZ r (n - r)) (length_seqZ r (n - r)).
    intros rows <- cols <-. induction rows as [|row rows IH]; cbn; [done|].
    rewrite length_app, IH. f_equal.
    clear IH. induction cols as [|col cols IH]; cbn; [done|]. by rewrite IH.
  - unfold dist_bind. apply Forall_bind, Forall_forall. intros row Hrow.
    apply Forall_bind, Forall_forall. intros col Hcol.
    apply elem_of_seqZ in Hrow, Hcol. apply Forall_singleton.
    rewrite !clip_inside by lia.
    eexists. split; [reflexivity|]. unfold window_rows, window_cols; cbn. lia.
Qed.

(** C3. On an image of shape [(1, 10, 10)] and the window shape
    [(2, 3)], every window [randwindow] can return has two rows and two
    columns, not three, and none ends at the last row or the last column
    although a window fits there. *)
Theorem randwindow_nonsquare_window :
  exists outcomes,
    randwindow [1; 10; 10] [2; 3] = Ok outcomes /\ outcomes <> [] /\
    Forall (fun o => exists w, o = Ok w /\ window_rows w = 2 /\ window_cols w = 2
                               /\ row1 w < 10 /\ col1 w < 10) outcomes.
Proof.
  eexists. split; [vm_compute; reflexivity|]. split; [discriminate|].
  repeat (apply Forall_cons; split;
          [eexists; split; [reflexivity | vm_compute; repeat split; reflexivity] |]).
  constructor.
Qed.

(** ** Geometries and bounds *)

Lemma shape_mapping g : shapely.shape (shapely.mapping g) = g.
Proof. by destruct g. Qed.

Lemma bounds_cases g :
  (coords g = [] /\ shapely.bounds g = []) \/
  (coords g <> [] /\ exists b0 b1 b2 b3, shapely.bounds g = [b0; b1; b2; b3]).
Proof.
  unfold shapely.bounds. destruct (coords g); [left|right]; split; eauto; done.
Qed.

Lemma transform_Ok_coords f g g' :
  ops.transform f g = Ok g' -> length (coords g') = length (coords g).
Proof.
  unfold ops.transform. intros Hg. inv_bind Hg. injection Hg as <-. cbn.
  eapply mapM_Ok_length; eassumption.
Qed.

Lemma foldl_Qmin_ge lo xs : forall x,
  (lo <= x)%Q -> Forall (fun y => (lo <= y)%Q) xs -> (lo <= foldl Qmin x xs)%Q.
Proof.
  induction xs as [|y ys IH]; intros x Hx Hxs; cbn; [done|].
  apply Forall_cons in Hxs as [Hy Hys]. apply IH; [|done].
  by apply Q.min_glb.
Qed.

Lemma foldl_Qmax_le hi xs : forall x,
  (x <= hi)%Q -> Forall (fun y => (y <= hi)%Q) xs -> (foldl Qmax x xs <= hi)%Q.
Proof.
  induction xs as [|y ys IH]; intros x Hx Hxs; cbn; [done|].
  apply Forall_cons in Hxs as [Hy Hys]. apply IH; [|done].
  by apply Q.max_lub.
Qed.

Lemma within_spec bnds p :
  within bnds p = true ->
  exists a b c d, bnds = [a; b; c; d] /\
    (a <= fst p /\ fst p <= c /\ b <= snd p /\ snd p <= d)%Q.
Proof.
  unfold within. destruct bnds as [|a [|b [|c [|d [|? ?]]]]]; try done.
  rewrite !andb_true_iff, !Qle_bool_iff. intros [[[? ?] ?] ?]. eauto 10.
Qed.

(** The bounds of a geometry whose coordinates all lie in a box lie in
    that box. *)
Lemma bounds_within_of_points bnds g :
  coords g <> [] ->
  Forall (fun p => within bnds p = true) (coords g) ->
  bounds_within (shapely.bounds g) bnds.
Proof.
  unfold shapely.bounds. destruct (coords g) as [|p ps]; [done|]. intros _ Hall.
  apply Forall_cons in Hall as [Hp Hps].
  apply within_spec in Hp as (a & b & c & d & -> & Ha & Hc & Hb & Hd).
  assert (Hps' : Forall (fun q =>
            (a <= fst q /\ fst q <= c /\ b <= snd q /\ snd q <= d)%Q) ps).
  { eapply Forall_impl; [exact Hps|]. intros q Hq.
    apply within_spec in Hq as (? & ? & ? & ? & [= <- <- <- <-] & ?). done. }
  cbn. split_and!.
  - apply foldl_Qmin_ge; [done|]. apply Forall_fmap.
    eapply Forall_impl; [exact Hps'|]. cbn. tauto.
  - apply foldl_Qmin_ge; [done|]. apply Forall_fmap.
    eapply Forall_impl; [exact Hps'|]. cbn. tauto.
  - apply foldl_Qmax_le; [done|]. apply Forall_fmap.
    eapply Forall_impl; [exact Hps'|]. cbn. tauto.
  - apply foldl_Qmax_le; [done|]. apply Forall_fmap.
    eapply Forall_impl; [exact Hps'|]. cbn. tauto.
Qed.

(** ** Geometry indexing *)

Section GeoImageProperties.
Context {T : Type} {HS : Shapely} {HP : Pyproj} {HT : GeoTransform T}.

Lemma contains_2axis (img : GeoImage T) (g : geometry) rows cols :
  im_shape img = [rows; cols] ->
  __contains__ img g =
    (ops.transform (rev (__geo_transform__ img)) g ≫= fun _ => Raise TypeError).
Proof. intros E. unfold __contains__. rewrite E. reflexivity. Qed.

Lemma contains_3axis (img : GeoImage T) (g : geometry) b rows cols :
  im_shape img = [b; rows; cols] ->
  __contains__ img g =
    (px ← ops.transform (rev (__geo_transform__ img)) g;
     Ok (contains (shapely.box 0 0 (inject_Z cols) (inject_Z rows) true) px)).
Proof. intros E. unfold __contains__. rewrite E. reflexivity. Qed.

(** What a successful geometry indexing went through. *)
Lemma getitem_Ok_inv (img img' : GeoImage T) (g : geometry) :
  __getitem__ img g = Ok img' ->
  exists px b0 b1 b2 b3 shp,
    __contains__ img g = Ok true /\
    ops.transform (rev (__geo_transform__ img)) g = Ok px /\
    shapely.bounds px = [b0; b1; b2; b3] /\
    array_getitem (im_shape img) b1 b3 b0 b2 = Ok shp /\
    img' = {| im_shape := shp; __geo_interface__ := shapely.mapping g;
              __geo_transform__ := add_offset (__geo_transform__ img) b0 b1 |}.
Proof.
  intros Hg. unfold __getitem__ in Hg. cbv zeta in Hg.
  rewrite shape_mapping in Hg. inv_bind Hg.
  apply py_assert_Ok in Ha0 as ->. injection Hg as <-.
  destruct (bounds_cases a1) as [[_ E]|[_ (b0 & b1 & b2 & b3 & E)]];
    rewrite E in *; [discriminate|].
  cbn in Ha2, Ha3, Ha4, Ha5. simplify_eq.
  eauto 12.
Qed.

Lemma getitem_transform (img img' : GeoImage T) (g : geometry) :
  __getitem__ img g = Ok img' ->
  exists dx dy, pixel_offset img g = Ok (dx, dy) /\
    __geo_transform__ img' = add_offset (__geo_transform__ img) dx dy.
Proof.
  intros Hg.
  apply getitem_Ok_inv in Hg as (px & b0 & b1 & b2 & b3 & shp & _ & Hpx & Hb & _ & ->).
  exists b0, b1. unfold pixel_offset. rewrite Hpx. cbn. rewrite Hb. done.
Qed.

(** C4, for images of three axes.  When the geometry, mapped into pixel
    space by the reverse transform, is not contained in the box
    [(0, 0, cols, rows)] of the image's shape, indexing raises the
    assertion error whose message is formatted with the bounds of the
    geometry and the bounds of the image; and indexing only succeeds when
    the mapped geometry is contained in that box. *)
Theorem getitem_containment_error (img : GeoImage T) (g : geometry) (b rows cols : Z) :
  im_shape img = [b; rows; cols] ->
  let pixel_box := shapely.box 0 0 (inject_Z cols) (inject_Z rows) true in
  (forall px, ops.transform (rev (__geo_transform__ img)) g = Ok px ->
     contains pixel_box px = false ->
     __getitem__ img g =
       Raise (AssertionError "Image does not contain specified geometry {} not in {}"
                [shapely.bounds g; bounds img]))
  /\ (forall img', __getitem__ img g = Ok img' ->
        exists px, ops.transform (rev (__geo_transform__ img)) g = Ok px /\
                   contains pixel_box px = true).
Proof.
  intros E pixel_box. split.
  - intros px Hpx Hc. unfold __getitem__. cbv zeta. rewrite shape_mapping.
    rewrite (contains_3axis _ _ _ _ _ E), Hpx. cbn. fold pixel_box.
    rewrite Hc. reflexivity.
  - intros img' Hg.
    apply getitem_Ok_inv in Hg as (px & b0 & b1 & b2 & b3 & shp & Hc & Hpx & _).
    rewrite (contains_3axis _ _ _ _ _ E), Hpx in Hc. cbn in Hc.
    injection Hc as Hc. eauto.
Qed.

(** C10.  On an image of two axes [(rows, cols)] the slice
    [shape[2:0:-1]] holds the single extent [cols], so the box of the
    containment test cannot be built: the test, geometry indexing and
    [aoi] with a geometry raise an error for every geometry (a
    [TypeError] as soon as the geometry maps into pixel space), and never
    answer. *)
Theorem getitem_two_axes_fails (img : GeoImage T) (g : geometry) (rows cols : Z) :
  im_shape img = [rows; cols] ->
  Py.slice_rev (im_shape img) 2 0 = [cols] /\
  (forall px, ops.transform (rev (__geo_transform__ img)) g = Ok px ->
     __contains__ img g = Raise TypeError /\ __getitem__ img g = Raise TypeError) /\
  (exists e, __contains__ img g = Raise e) /\
  (exists e, __getitem__ img g = Raise e) /\
  (forall kwargs g', _parse_geoms img kwargs = Ok (Some g') ->
     exists e, aoi img kwargs = Raise e).
Proof.
  intros E.
  assert (Hc : forall g0, exists e, __contains__ img g0 = Raise e /\
            (forall px, ops.transform (rev (__geo_transform__ img)) g0 = Ok px ->
               e = TypeError)).
  { intros g0. rewrite (contains_2axis _ _ _ _ E).
    destruct (ops.transform _ g0) as [px|e]; cbn; eexists; split; eauto; done. }
  assert (Hg : forall g0, exists e, __getitem__ img g0 = Raise e /\
            (forall px, ops.transform (rev (__geo_transform__ img)) g0 = Ok px ->
               e = TypeError)).
  { intros g0. destruct (Hc g0) as (e & He & Hpx). exists e. split; [|done].
    unfold __getitem__. cbv zeta. rewrite shape_mapping, He. reflexivity. }
  split; [by rewrite E|]. split; [|split; [|split]].
  - intros px Hpx. destruct (Hc g) as (e & He & Hty), (Hg g) as (e' & He' & Hty').
    rewrite He, He', (Hty _ Hpx), (Hty' _ Hpx). done.
  - destruct (Hc g) as (e & He & _). eauto.
  - destruct (Hg g) as (e & He & _). eauto.
  - intros kwargs g' Hp. unfold aoi. rewrite Hp. cbn.
    destruct (Hg g') as (e & He & _). eauto.
Qed.

(** C7.  When every coordinate of [g] lies in the bounds of the image and
    the image can be indexed by [g], the bounds of the result are the
    bounds of [g] and lie within the bounds of the image. *)
Theorem getitem_bounds_subset (img img' : GeoImage T) (g : geometry) :
  Forall (fun p => within (bounds img) p = true) (coords g) ->
  __getitem__ img g = Ok img' ->
  bounds img' = shapely.bounds g /\ bounds_within (bounds img') (bounds img).
Proof.
  intros Hin Hg.
  apply getitem_Ok_inv in Hg as (px & b0 & b1 & b2 & b3 & shp & _ & Hpx & Hb & _ & ->).
  assert (Hne : coords g <> []).
  { apply transform_Ok_coords in Hpx. intros E. rewrite E in Hpx.
    destruct (bounds_cases px) as [[_ E']|[Hn _]]; [congruence|].
    destruct (coords px); [done|discriminate]. }
  unfold bounds at 1 2. cbn [__geo_interface__]. rewrite shape_mapping.
  split; [done|]. by apply bounds_within_of_points.
Qed.

(** ** aoi *)

Lemma kwargs_get_insert_ne {A} (kwargs : gmap string A) k k' v d :
  k <> k' -> kwargs_get (<[k := v]> kwargs) k' d = kwargs_get kwargs k' d.
Proof. intros Hne. unfold kwargs_get. by rewrite lookup_insert_ne. Qed.

Lemma is_not_None_true v : v <> PyNone -> is_not_None v = true.
Proof. by destruct v. Qed.

Lemma use_geometry_unfold (self : GeoImage T) kwargs (built : result geometry) :
  (g ← (g ← built; parsed self kwargs g);
   match g with Some g => __getitem__ self g | None => Ok self end)
  = use_geometry self kwargs built.
Proof. by destruct built. Qed.

Lemma use_geometry_insert (self : GeoImage T) kwargs k v built :
  k <> "from_proj"%string ->
  use_geometry self (<[k := v]> kwargs) built = use_geometry self kwargs built.
Proof.
  intros Hk. unfold use_geometry. destruct built as [g|e]; [|done]. cbn.
  unfold parsed. by rewrite kwargs_get_insert_ne.
Qed.

(** What the wrapper makes of a result, by the number of its axes. *)
Lemma wrapped_Ok (self res : GeoImage T) :
  (length (im_shape res) ∈ [2%nat; 3%nat] ->
     wrapped self (Ok res) =
       Ok (Rebuilt {| im_shape := im_shape res;
                      __geo_interface__ := __geo_interface__ self;
                      __geo_transform__ := __geo_transform__ self |}))
  /\ (length (im_shape res) ∉ [2%nat; 3%nat] -> wrapped self (Ok res) = Ok (Same res)).
Proof.
  unfold wrapped; cbn. split; intros Hl.
  - by rewrite bool_decide_eq_true_2.
  - by rewrite bool_decide_eq_false_2.
Qed.

Lemma aoi_use_geometry (self : GeoImage T) (kwargs : gmap string pyval) :
  let bbox := kwargs_get kwargs "bbox" PyNone in
  let wkt_geom := kwargs_get kwargs "wkt" PyNone in
  let geojson := kwargs_get kwargs "geojson" PyNone in
  (bbox <> PyNone ->
     aoi self kwargs =
       use_geometry self kwargs
         (match bbox with PyFloats l => shapely.box_star l | _ => Raise TypeError end)
     /\ forall w j,
          aoi self (<["wkt" := w]> (<["geojson" := j]> kwargs)) = aoi self kwargs)
  /\ (bbox = PyNone -> wkt_geom <> PyNone ->
     aoi self kwargs =
       use_geometry self kwargs
         (match wkt_geom with PyStr s => wkt_loads s | _ => Raise TypeError end)
     /\ forall j, aoi self (<["geojson" := j]> kwargs) = aoi self kwargs)
  /\ (bbox = PyNone -> wkt_geom = PyNone -> geojson <> PyNone ->
     aoi self kwargs =
       use_geometry self kwargs
         (match geojson with
          | PyMapping m => Ok (shapely.shape m)
          | _ => Raise AttributeError
          end))
  /\ (bbox = PyNone -> wkt_geom = PyNone -> geojson = PyNone ->
     aoi self kwargs = Ok self).
Proof.
  intros bbox wkt_geom geojson. split_and!.
  - intros Hb. split.
    + unfold aoi, _parse_geoms. fold bbox.
      rewrite (is_not_None_true _ Hb). apply use_geometry_unfold.
    + intros w j. unfold aoi, _parse_geoms.
      rewrite !kwargs_get_insert_ne by done. fold bbox.
      rewrite (is_not_None_true _ Hb), !use_geometry_unfold.
      by rewrite !use_geometry_insert.
  - intros Hb Hw. split.
    + unfold aoi, _parse_geoms. fold bbox wkt_geom. rewrite Hb. cbn [is_not_None].
      rewrite (is_not_None_true _ Hw). apply use_geometry_unfold.
    + intros j. unfold aoi, _parse_geoms.
      rewrite !kwargs_get_insert_ne by done. fold bbox wkt_geom. rewrite Hb. cbn [is_not_None].
      rewrite (is_not_None_true _ Hw), !use_geometry_unfold.
      by rewrite !use_geometry_insert.
  - intros Hb Hw Hj. unfold aoi, _parse_geoms. fold bbox wkt_geom geojson.
    rewrite Hb, Hw. cbn [is_not_None]. rewrite (is_not_None_true _ Hj). apply use_geometry_unfold.
  - intros Hb Hw Hj. unfold aoi, _parse_geoms. fold bbox wkt_geom geojson.
    by rewrite Hb, Hw, Hj.
Qed.


End GeoImageProperties.

(** ** The geometry layer on explicit images *)

Lemma ex_image_getitem_g1 :
  __getitem__ (HS := example_Shapely) ex_image ex_g1 = Ok ex_clip1.
Proof. vm_compute. reflexivity. Qed.

Lemma ex_clip1_getitem_g2 :
  __getitem__ (HS := example_Shapely) ex_clip1 ex_g2 = Ok ex_clip2.
Proof. vm_compute. reflexivity. Qed.

Lemma ex_g1_within_ex_image :
  Forall (fun p => within (bounds ex_image) p = true) (coords ex_g1).
Proof.
  unfold ex_g1, shapely.box; cbn [coords app].
  repeat (apply Forall_cons; split; [vm_compute; reflexivity|]). constructor.
Qed.

(** A geometry outside a three-axis image: the containment error with
    both bounds. *)
Lemma getitem_containment_error_witness :
  __getitem__ (HS := example_Shapely) ex_image ex_outside =
    Raise (AssertionError "Image does not contain specified geometry {} not in {}"
             [shapely.bounds ex_outside; bounds ex_image]).
Proof.
  eapply (proj1 (getitem_containment_error (HS := example_Shapely)
                   ex_image ex_outside 1 10 10 eq_refl)).
  - vm_compute. reflexivity.
  - vm_compute. reflexivity.
Defined.

(** C4 as stated fails on a two-axis image: the geometry lies outside the
    box [(0, 0, 6, 4)] of the shape [(4, 6)], and indexing raises a
    [TypeError], not the containment error. *)
Lemma getitem_two_axes_type_error :
  (pixels ← ops.transform (rev (__geo_transform__ ex_image_2d)) ex_outside;
   Ok (vertex_contains (shapely.box 0 0 6 4 true) pixels)) = Ok false /\
  __getitem__ (HS := example_Shapely) ex_image_2d ex_outside = Raise TypeError /\
  forall template args,
    __getitem__ (HS := example_Shapely) ex_image_2d ex_outside
    <> Raise (AssertionError template args).
Proof.
  split; [vm_compute; reflexivity|].
  assert (E : __getitem__ (HS := example_Shapely) ex_image_2d ex_outside
              = Raise TypeError) by (vm_compute; reflexivity).
  split; [exact E|]. intros template args. rewrite E. discriminate.
Qed.

(** A geometry inside the box of a two-axis image fails all the same. *)
Lemma getitem_two_axes_fails_witness :
  __contains__ (HS := example_Shapely) ex_image_2d (shapely.box 1 1 2 2 true)
    = Raise TypeError /\
  __getitem__ (HS := example_Shapely) ex_image_2d (shapely.box 1 1 2 2 true)
    = Raise TypeError.
Proof.
  eapply (proj1 (proj2 (getitem_two_axes_fails (HS := example_Shapely)
                          (HP := example_Pyproj) ex_image_2d
                          (shapely.box 1 1 2 2 true) 4 6 eq_refl))).
  vm_compute. reflexivity.
Defined.

Lemma getitem_bounds_subset_witness :
  bounds ex_clip1 = shapely.bounds ex_g1 /\
  bounds_within (bounds ex_clip1) (bounds ex_image).
Proof.
  exact (getitem_bounds_subset (HS := example_Shapely) ex_image ex_clip1 ex_g1
           ex_g1_within_ex_image ex_image_getitem_g1).
Defined.


(** ** Translation of the transform *)

Lemma affine_translate_translate (t : Affine) dx1 dy1 dx2 dy2 :
  affine.equiv
    (affine.mul (affine.mul t (affine.translation dx1 dy1))
                (affine.translation dx2 dy2))
    (affine.mul t (affine.translation (dx1 + dx2) (dy1 + dy2))).
Proof.
  unfold affine.equiv, affine.mul, affine.translation; cbn. split_and!; ring.
Qed.

(** C5.  The transform of [img[g]] is the transform of [img] plus the
    pixel offset of the window of [g]; indexing the clipped image again
    adds the second window's offset to it, so the transform of the second
    result is the original affine matrix translated by the sum of the two
    offsets, with the projection unchanged. *)
Theorem getitem_offsets_compose {HS : Shapely}
    (img img1 img2 : GeoImage AffineTransform) (g1 g2 : geometry) :
  __getitem__ img g1 = Ok img1 ->
  __getitem__ img1 g2 = Ok img2 ->
  exists dx1 dy1 dx2 dy2,
    pixel_offset img g1 = Ok (dx1, dy1) /\
    pixel_offset img1 g2 = Ok (dx2, dy2) /\
    __geo_transform__ img1 = add_offset (__geo_transform__ img) dx1 dy1 /\
    __geo_transform__ img2 = add_offset (__geo_transform__ img1) dx2 dy2 /\
    affine.equiv (_affine (__geo_transform__ img2))
      (affine.mul (_affine (__geo_transform__ img))
                  (affine.translation (dx1 + dx2) (dy1 + dy2))) /\
    at_proj (__geo_transform__ img2) = at_proj (__geo_transform__ img).
Proof.
  intros H1 H2.
  apply getitem_transform in H1 as (dx1 & dy1 & Ho1 & E1).
  apply getitem_transform in H2 as (dx2 & dy2 & Ho2 & E2).
  exists dx1, dy1, dx2, dy2.
  split; [done|]. split; [done|]. split; [done|]. split; [done|]. split.
  - rewrite E2, E1. apply affine_translate_translate.
  - rewrite E2, E1. reflexivity.
Qed.

(** Two windows at pixel offsets [(2, 3)] and [(2, 2)]: the matrix of the
    second result is the original one translated by [(4, 5)]. *)
Lemma getitem_offsets_compose_witness :
  pixel_offset ex_image ex_g1 = Ok (2%Q, 3%Q) /\
  pixel_offset ex_clip1 ex_g2 = Ok (2%Q, 2%Q) /\
  affine.equiv (_affine (__geo_transform__ ex_clip2))
    (affine.mul (_affine pixel_grid) (affine.translation (2 + 2) (3 + 2))).
Proof.
  destruct (getitem_offsets_compose (HS := example_Shapely)
              ex_image ex_clip1 ex_clip2 ex_g1 ex_g2
              ex_image_getitem_g1 ex_clip1_getitem_g2)
    as (dx1 & dy1 & dx2 & dy2 & Ho1 & Ho2 & _ & _ & He & _).
  assert (E1 : pixel_offset ex_image ex_g1 = Ok (2%Q, 3%Q))
    by (vm_compute; reflexivity).
  assert (E2 : pixel_offset ex_clip1 ex_g2 = Ok (2%Q, 2%Q))
    by (vm_compute; reflexivity).
  rewrite E1 in Ho1. rewrite E2 in Ho2.
  injection Ho1 as <- <-. injection Ho2 as <- <-.
  split; [done|]. split; [done|]. exact He.
Defined.

(** ** Numbers *)

Lemma Qint_nonneg q : (0 <= q)%Q -> Qint q = Qfloor q.
Proof.
  destruct q as [n d]. unfold Qle, Qint, Qfloor; cbn. intros Hn.
  apply Z.quot_div_nonneg; lia.
Qed.

(** The ceiling of a rational that is not whole is its floor plus one. *)
Lemma Qceiling_floor_succ q : ~ is_integer q -> Qceiling q = Qfloor q + 1.
Proof.
  intros Hq.
  pose proof (Qfloor_le q) as Hfl. pose proof (Qlt_floor q) as Hlt.
  pose proof (Qle_ceiling q) as Hce. pose proof (Qceiling_lt q) as Hcl.
  assert (Qceiling q <= Qfloor q + 1).
  { assert (Hlt' : (inject_Z (Qceiling q - 1) < inject_Z (Qfloor q + 1))%Q)
      by (eapply Qlt_trans; eassumption).
    rewrite <- Zlt_Qlt in Hlt'. lia. }
  assert (Qfloor q <= Qceiling q) by (rewrite Zle_Qle; apply Qle_floor_ceiling).
  destruct (Z.eq_dec (Qceiling q) (Qfloor q)) as [E|]; [|lia].
  exfalso. apply Hq. unfold is_integer. apply Qle_antisym; [done|].
  by rewrite <- E.
Qed.

Lemma Qeq_bool_false x y : ~ (x == y)%Q -> Qeq_bool x y = false.
Proof.
  intros Hne. destruct (Qeq_bool x y) eqn:E; [|done].
  by apply Qeq_bool_eq in E.
Qed.

(** ** Dictionaries filled by two nested loops *)

Section Loops.
Context {V : Type} (kf : Z -> Z -> key) (vf : Z -> Z -> V).

Lemma dom_inner_loop (xs : list Z) y : forall d : gmap key V,
  dom (foldl (fun d x => <[kf y x := vf y x]> d) d xs)
  = dom d ∪ list_to_set (kf y <$> xs).
Proof.
  induction xs as [|x xs IH]; intros d; cbn.
  - by rewrite (right_id_L ∅ (∪)).
  - rewrite IH, dom_insert_L, (comm_L (∪) {[kf y x]}), <- (assoc_L (∪)). done.
Qed.

Lemma dom_nested_loops (xs ys : list Z) : forall d : gmap key V,
  dom (foldl (fun d y => foldl (fun d x => <[kf y x := vf y x]> d) d xs) d ys)
  = dom d ∪ list_to_set (ys ≫= fun y => kf y <$> xs).
Proof.
  induction ys as [|y ys IH]; intros d; cbn.
  - by rewrite (right_id_L ∅ (∪)).
  - by rewrite IH, dom_inner_loop, list_to_set_app_L, (assoc_L (∪)).
Qed.

Lemma length_bind_fmap (xs ys : list Z) :
  length (ys ≫= fun y => kf y <$> xs) = (length ys * length xs)%nat.
Proof.
  induction ys as [|y ys IH]; cbn; [done|].
  rewrite length_app, length_fmap, IH. lia.
Qed.

(** With keys that tell the iterations apart, the dictionary holds one
    entry for every iteration of the inner body. *)
Lemma size_nested_loops (xs ys : list Z) :
  (forall y x y' x', kf y x = kf y' x' -> y = y' /\ x = x') ->
  NoDup xs -> NoDup ys ->
  size (foldl (fun d y => foldl (fun d x => <[kf y x := vf y x]> d) d xs)
          (∅ : gmap key V) ys)
  = (length ys * length xs)%nat.
Proof.
  intros Hinj Hxs Hys.
  rewrite <- size_dom, dom_nested_loops, dom_empty_L, (left_id_L ∅ (∪)).
  rewrite size_list_to_set, length_bind_fmap; [done|].
  apply NoDup_bind; [| |done].
  - intros y y' k _ _ (x & -> & _)%list_elem_of_fmap (x' & E & _)%list_elem_of_fmap.
    by apply Hinj in E as [? _].
  - intros y _. apply NoDup_fmap_2_strong; [|done].
    intros x x' _ _ E. by apply Hinj in E as [_ ?].
Qed.

End Loops.

(** ** Binary64 numbers *)

Lemma Qpower_2_pos p : (2 ^ Z.pos p == inject_Z (2 ^ Z.pos p))%Q.
Proof. by rewrite (Zpower_Qpower 2 (Z.pos p)). Qed.

(** [int(x)] of a float that is not negative is the floor of its value. *)
Lemma to_int_floor (x : spec_float) (n : Z) :
  float64.to_int x = Ok n -> (0 <= float64.to_Q x)%Q -> n = Qfloor (float64.to_Q x).
Proof.
  destruct x as [s| s | |s m e]; cbn [float64.to_int float64.to_Q]; try discriminate.
  - by intros [= <-] _.
  - intros [= <-] Hpos. destruct s.
    + exfalso. apply (Qle_not_lt _ _ Hpos).
      setoid_replace (-1 * inject_Z (Z.pos m) * 2 ^ e)%Q
        with (- (inject_Z (Z.pos m) * 2 ^ e))%Q using relation Qeq by ring.
      apply (Qopp_lt_compat 0). apply Qmult_lt_0_compat; [done|].
      by apply Qpower_0_lt.
    + setoid_replace (1 * inject_Z (Z.pos m) * 2 ^ e)%Q
        with (inject_Z (Z.pos m) * 2 ^ e)%Q using relation Qeq by ring.
      destruct e as [|p|p].
      * change (2 ^ 0)%Q with 1%Q. rewrite Qmult_1_r, Qfloor_Z. done.
      * rewrite Qpower_2_pos, <- inject_Z_mult, Qfloor_Z.
        by rewrite Z.shiftl_mul_pow2.
      * change (2 ^ Z.neg p)%Q with (/ (2 ^ Z.pos p))%Q.
        rewrite Qpower_2_pos.
        change (inject_Z (Z.pos m) * / inject_Z (2 ^ Z.pos p))%Q
          with (inject_Z (Z.pos m) / inject_Z (2 ^ Z.pos p))%Q.
        rewrite <- Zdiv_Qdiv.
        change (Z.shiftl (Z.pos m) (Z.neg p)) with (Z.shiftr (Z.pos m) (Z.pos p)).
        by rewrite Z.shiftr_div_pow2.
Qed.

(** ** Loops that may raise *)

Section FallibleLoops.
Context {V : Type} (kf : Z -> Z -> key) (body : Z -> Z -> result V) (vf : Z -> Z -> V).
Hypothesis vf_body : forall y x v, body y x = Ok v -> vf y x = v.

(** A loop over [xs] that stores the result of [body] under the key of
    the iteration returns when every iteration does, and then holds what
    the loop of the values holds. *)
Lemma for_each_inner xs y : forall d d' : gmap key V,
  Py.for_each (fun d x => v ← body y x; Ok (<[kf y x := v]> d)) d xs = Ok d' <->
  Forall (fun x => is_Ok (body y x)) xs /\
  d' = foldl (fun d x => <[kf y x := vf y x]> d) d xs.
Proof.
  induction xs as [|x xs IH]; intros d d'; cbn.
  - split; [intros [= <-]; split; [constructor|done] | by intros [_ ->]].
  - destruct (body y x) as [v|e] eqn:E; cbn.
    + rewrite IH, (vf_body _ _ _ E). split.
      * intros [Hall ->]. split; [constructor; [by eexists|done] | done].
      * intros [Hall ->]. apply Forall_cons in Hall as [_ Hall]. done.
    + split; [done|]. intros [Hall _]. apply Forall_cons in Hall as [[v Hv] _]. congruence.
Qed.

Lemma for_each_nested xs ys : forall d d' : gmap key V,
  Py.for_each (fun d y =>
    Py.for_each (fun d x => v ← body y x; Ok (<[kf y x := v]> d)) d xs) d ys = Ok d' <->
  Forall (fun y => Forall (fun x => is_Ok (body y x)) xs) ys /\
  d' = foldl (fun d y => foldl (fun d x => <[kf y x := vf y x]> d) d xs) d ys.
Proof.
  induction ys as [|y ys IH]; intros d d'; cbn.
  - split; [intros [= <-]; split; [constructor|done] | by intros [_ ->]].
  - destruct (Py.for_each _ d xs) as [d1|e] eqn:E; cbn.
    + apply for_each_inner in E as [Hxs ->]. rewrite IH. split.
      * intros [Hall ->]. split; [by constructor | done].
      * intros [Hall ->]. apply Forall_cons in Hall as [_ Hall]. done.
    + split; [done|]. intros [Hall _]. apply Forall_cons in Hall as [Hxs _].
      assert (Hok : Py.for_each (fun d x => v ← body y x; Ok (<[kf y x := v]> d)) d xs
                    = Ok (foldl (fun d x => <[kf y x := vf y x]> d) d xs))
        by (by apply for_each_inner).
      rewrite E in Hok. done.
Qed.

End FallibleLoops.

Section LoopLookup.
Context {V : Type} (kf : Z -> Z -> key) (vf : Z -> Z -> V).
Hypothesis kf_inj : forall y x y' x', kf y x = kf y' x' -> y = y' /\ x = x'.

Lemma lookup_inner_in (xs : list Z) y x : forall d : gmap key V,
  x ∈ xs -> foldl (fun d x => <[kf y x := vf y x]> d) d xs !! kf y x = Some (vf y x).
Proof.
  induction xs as [|x' xs IH]; intros d Hx; [by apply elem_of_nil in Hx|]. cbn.
  destruct (decide (x ∈ xs)) as [Hin|Hnin]; [by apply IH|].
  apply elem_of_cons in Hx as [->|]; [|done].
  clear IH. revert d. induction xs as [|x'' xs IH]; intros d; cbn.
  - by rewrite lookup_insert_eq.
  - apply not_elem_of_cons in Hnin as [Hne Hnin].
    rewrite insert_insert_ne; [by apply IH|].
    intros E. apply kf_inj in E as [_ ?]. done.
Qed.

Lemma lookup_inner_other (xs : list Z) y k : forall d : gmap key V,
  (forall x, x ∈ xs -> k <> kf y x) ->
  foldl (fun d x => <[kf y x := vf y x]> d) d xs !! k = d !! k.
Proof.
  induction xs as [|x xs IH]; intros d Hk; cbn; [done|].
  rewrite IH by (intros x' Hx'; apply Hk; by right).
  apply lookup_insert_ne. intros E. by apply (Hk x); [left|].
Qed.

Lemma lookup_nested_in (xs ys : list Z) y x : forall d : gmap key V,
  y ∈ ys -> x ∈ xs ->
  foldl (fun d y => foldl (fun d x => <[kf y x := vf y x]> d) d xs) d ys !! kf y x
  = Some (vf y x).
Proof.
  induction ys as [|y' ys IH]; intros d Hy Hx; [by apply elem_of_nil in Hy|]. cbn.
  destruct (decide (y ∈ ys)) as [Hin|Hnin]; [by apply IH|].
  apply elem_of_cons in Hy as [->|]; [|done].
  clear IH.
  set (d' := foldl (fun d x => <[kf y' x := vf y' x]> d) d xs).
  assert (Hd' : d' !! kf y' x = Some (vf y' x)) by by apply lookup_inner_in.
  clearbody d'. revert d' Hd'.
  induction ys as [|y'' ys IH]; intros d' Hd'; cbn; [done|].
  apply not_elem_of_cons in Hnin as [Hne Hnin]. apply IH; [done|].
  rewrite lookup_inner_other; [done|].
  intros x' _ E. apply kf_inj in E as [? _]. done.
Qed.

End LoopLookup.

(** ** warp *)

Section WarpProperties.
Context {T : Type} {HC : IpeCatalog T} {HU : IpeUtil} {HD : DaskLibrary}.

(** What [GeoDaskWrapper] makes of a metadata dictionary. *)
Lemma GeoDaskWrapper_new_Ok (d : daskmeta_dict warp_task) (img : GeoImage T)
    (w : GeoDaskWrapper T) :
  GeoDaskWrapper__new__ d img = Ok w ->
  exists ch dt dty,
    normalize_chunks (da_chunks d) (da_shape d) = Ok ch /\
    da_dtype d = Some dt /\ np_dtype dt = Ok dty /\ length ch ∈ [2%nat; 3%nat] /\
    w = {| gdw_array := {| arr_dask := da_dask d; arr_name := da_name d;
                           arr_chunks := ch; arr_dtype := dty;
                           arr_daskmeta := Some d |};
           gdw_geo_interface := __geo_interface__ img;
           gdw_geo_transform := __geo_transform__ img |}.
Proof.
  unfold GeoDaskWrapper__new__. intros Hw.
  apply bind_Ok in Hw as (arr & Harr & Hw). injection Hw as <-.
  rewrite create_instance in Harr.
  change (chunks d) with (da_chunks d) in Harr.
  change (shape d) with (da_shape d) in Harr.
  change (dtype d) with (da_dtype d) in Harr.
  destruct (normalize_chunks (da_chunks d) (da_shape d)) as [ch|e]; [|discriminate].
  destruct (da_dtype d) as [dt|]; [|discriminate].
  cbn [mbind result_bind] in Harr.
  destruct (np_dtype dt) as [dty|e] eqn:Hdty; [|discriminate].
  cbn [mbind result_bind] in Harr.
  match type of Harr with infect d ?t = _ =>
    destruct (infect_cases d t) as [Hin Hout] end.
  cbn [arr_chunks] in Hin, Hout.
  destruct (decide (length ch ∈ [2%nat; 3%nat])) as [Hl|Hl];
    [|by rewrite (Hout Hl) in Harr].
  rewrite (Hin Hl) in Harr. injection Harr as <-.
  exists ch, dt, dty. done.
Qed.

(** The parts of a call of [warp] that returns. *)
Lemma warp_Ok_inv (self : IpeImage T) dem rpcs prj (kwargs : gmap string Q) img :
  warp self dem rpcs prj kwargs = Ok img ->
  let img_md := ipe_metadata_image self in
  let im_full := open_1b (imageId img_md) in
  let gsd := kwargs_get kwargs "gsd" (ipe_metadata_rpcs_gsd im_full) in
  let nm := ("warp-" ++ ipe_id self)%string in
  exists gtf ll ur qx qy nx ny dt tiles ch dty,
    warp_corners self kwargs = Ok (gtf, ll, ur) /\
    tile_quotient (float64.sub (fst ur) (fst ll)) (tileXSize img_md) = Ok qx /\
    tile_quotient (float64.sub (snd ll) (snd ur)) (tileYSize img_md) = Ok qy /\
    float64.to_int qx = Ok nx /\ float64.to_int qy = Ok ny /\
    IPE_TO_DTYPE !! dataType img_md = Some dt /\
    warp_tiles img_md (ipe_id im_full) gtf ll ur nm (nx + 1) (ny + 1)
      dem rpcs prj gsd = Ok tiles /\
    normalize_chunks [numBands img_md; tileYSize img_md; tileXSize img_md]
      [numBands img_md; (ny + 1) * tileYSize img_md; (nx + 1) * tileXSize img_md]
      = Ok ch /\
    np_dtype dt = Ok dty /\
    img = {| gdw_array := {| arr_dask := tiles; arr_name := nm; arr_chunks := ch;
                             arr_dtype := dty;
                             arr_daskmeta :=
                               Some {| da_dask := tiles;
                                       da_chunks := [numBands img_md; tileYSize img_md;
                                                     tileXSize img_md];
                                       da_dtype := Some dt;
                                       da_name := nm;
                                       da_shape := [numBands img_md;
                                                    (ny + 1) * tileYSize img_md;
                                                    (nx + 1) * tileXSize img_md] |} |};
             gdw_geo_interface := __geo_interface__ (ipe_geo self);
             gdw_geo_transform := __geo_transform__ (ipe_geo self) |}.
Proof.
  intros Hw img_md im_full gsd nm. unfold warp in Hw.
  fold img_md im_full gsd nm in Hw.
  apply bind_Ok in Hw as ([[gtf ll] ur] & Hc & Hw).
  unfold chunk_count in Hw.
  apply bind_Ok in Hw as (xc & Hxc & Hw).
  apply bind_Ok in Hxc as (qx & Hqx & Hxc). apply bind_Ok in Hxc as (nx & Hnx & Hxc).
  injection Hxc as <-.
  apply bind_Ok in Hw as (yc & Hyc & Hw).
  apply bind_Ok in Hyc as (qy & Hqy & Hyc). apply bind_Ok in Hyc as (ny & Hny & Hyc).
  injection Hyc as <-.
  apply bind_Ok in Hw as (dt & Hdt & Hw).
  destruct (IPE_TO_DTYPE !! dataType img_md) as [dt'|] eqn:Edt; [|discriminate].
  injection Hdt as ->.
  apply bind_Ok in Hw as (tiles & Htiles & Hw).
  apply GeoDaskWrapper_new_Ok in Hw as (ch & dt2 & dty & Hch & Hdt2 & Hdty & _ & ->).
  cbn in Hch, Hdt2. injection Hdt2 as <-.
  exists gtf, ll, ur, qx, qy, nx, ny, dt, tiles, ch, dty. done.
Qed.

(** Every key is [(name, 0, y - minTileY, x - minTileX)] for loop indices
    [0 <= y < y_chunks] and [0 <= x < x_chunks], every pair of indices has
    its key, and there are as many tasks as pairs. *)
Lemma warp_tiles_Ok img_md fid gtf ll ur nm xc yc dem rpcs prj gsd tiles :
  warp_tiles img_md fid gtf ll ur nm xc yc dem rpcs prj gsd = Ok tiles ->
  (forall k, k ∈ dom tiles <->
     exists y x, 0 <= y < yc /\ 0 <= x < xc /\
       k = (nm, 0, y - minTileY img_md, x - minTileX img_md)) /\
  size tiles = (Z.to_nat yc * Z.to_nat xc)%nat /\
  (forall y x, 0 <= y < yc -> 0 <= x < xc ->
     exists task,
       warp_tile img_md fid gtf ll ur dem rpcs prj gsd y x = Ok task /\
       tiles !! (nm, 0, y - minTileY img_md, x - minTileX img_md) = Some task).
Proof.
  intros Ht. unfold warp_tiles in Ht.
  set (body := warp_tile img_md fid gtf ll ur dem rpcs prj gsd) in Ht |- *.
  set (dflt := {| task_warp_geometry_of := fid;
                  task_geometry := box64 float64.zero float64.zero float64.zero float64.zero;
                  task_dem := dem; task_rpcs := rpcs; task_proj := prj;
                  task_gsd := gsd |}).
  set (kf := fun y x : Z => (nm, 0, y - minTileY img_md, x - minTileX img_md)).
  set (vf := fun y x => match body y x with Ok v => v | Raise _ => dflt end).
  assert (Hvf : forall y x v, body y x = Ok v -> vf y x = v)
    by (intros y x v E; unfold vf; by rewrite E).
  assert (Hinj : forall y x y' x', kf y x = kf y' x' -> y = y' /\ x = x')
    by (intros y x y' x' [= ? ?]; lia).
  destruct (proj1 (for_each_nested kf body vf Hvf _ _ _ _) Ht) as [Hall Et].
  rewrite Et. clear Et Ht.
  split_and!.
  - intros k.
    rewrite (dom_nested_loops kf vf), dom_empty_L, (left_id_L ∅ (∪)).
    rewrite elem_of_list_to_set, list_elem_of_bind. unfold Py.xrange. split.
    + intros (y & (x & -> & Hx)%list_elem_of_fmap & Hy).
      apply elem_of_seqZ in Hx, Hy. exists y, x. split; [lia|]. split; [lia|done].
    + intros (y & x & Hy & Hx & ->). exists y. split.
      * apply list_elem_of_fmap. exists x. split; [done|]. apply elem_of_seqZ. lia.
      * apply elem_of_seqZ. lia.
  - rewrite (size_nested_loops kf vf); [|done|apply NoDup_seqZ|apply NoDup_seqZ].
    unfold Py.xrange. by rewrite !length_seqZ.
  - intros y x Hy Hx.
    assert (Hy' : y ∈ Py.xrange yc) by (apply elem_of_seqZ; lia).
    assert (Hx' : x ∈ Py.xrange xc) by (apply elem_of_seqZ; lia).
    rewrite Forall_forall in Hall. specialize (Hall y Hy').
    rewrite Forall_forall in Hall. destruct (Hall x Hx') as [task Htask].
    exists task. split; [done|].
    rewrite (lookup_nested_in kf vf Hinj _ _ y x ∅ Hy' Hx').
    by rewrite (Hvf _ _ _ Htask).
Qed.

(** C1, as the code has it.  When [warp] returns, the graph of its
    result holds [(floor(qx) + 1) * (floor(qy) + 1)] tile tasks, where [qx]
    and [qy] are the quotients of the pixel extents of the image by the
    tile sizes as the code computes them in binary64, both not negative:
    the quotient is truncated and one is always added.  This is
    [ceil(qx) * ceil(qy)] when neither quotient is a whole number. *)
Theorem warp_tile_count (self : IpeImage T) dem rpcs prj (kwargs : gmap string Q)
    (gtf : Affine64) (ll ur : point64) (qx qy : spec_float) (img : GeoDaskWrapper T) :
  let img_md := ipe_metadata_image self in
  warp_corners self kwargs = Ok (gtf, ll, ur) ->
  tile_quotient (float64.sub (fst ur) (fst ll)) (tileXSize img_md) = Ok qx ->
  tile_quotient (float64.sub (snd ll) (snd ur)) (tileYSize img_md) = Ok qy ->
  (0 <= float64.to_Q qx)%Q -> (0 <= float64.to_Q qy)%Q ->
  warp self dem rpcs prj kwargs = Ok img ->
  Z.of_nat (size (arr_dask (gdw_array img)))
    = (Qfloor (float64.to_Q qx) + 1) * (Qfloor (float64.to_Q qy) + 1) /\
  (~ is_integer (float64.to_Q qx) -> ~ is_integer (float64.to_Q qy) ->
     Z.of_nat (size (arr_dask (gdw_array img)))
       = Qceiling (float64.to_Q qx) * Qceiling (float64.to_Q qy)).
Proof.
  intros img_md Hc Hqx Hqy Hx Hy Hw.
  apply warp_Ok_inv in Hw
    as (gtf' & ll' & ur' & qx' & qy' & nx & ny & dt & tiles & ch & dty
        & Hc' & Hqx' & Hqy' & Hnx & Hny & _ & Htiles & _ & _ & ->).
  fold img_md in Hqx', Hqy', Htiles.
  rewrite Hc in Hc'. injection Hc' as <- <- <-.
  rewrite Hqx in Hqx'. injection Hqx' as <-.
  rewrite Hqy in Hqy'. injection Hqy' as <-.
  apply to_int_floor in Hnx, Hny; [|done..]. subst nx ny.
  apply warp_tiles_Ok in Htiles as (_ & Hsize & _).
  cbn [gdw_array arr_dask]. rewrite Hsize.
  pose proof (Qfloor_resp_le _ _ Hx) as Hfx.
  pose proof (Qfloor_resp_le _ _ Hy) as Hfy.
  change (Qfloor 0) with 0 in Hfx, Hfy.
  assert (Hs : Z.of_nat (Z.to_nat (Qfloor (float64.to_Q qy) + 1) *
                         Z.to_nat (Qfloor (float64.to_Q qx) + 1))
               = (Qfloor (float64.to_Q qx) + 1) * (Qfloor (float64.to_Q qy) + 1)) by lia.
  split; [exact Hs|].
  intros Hnx Hny. rewrite Hs, !Qceiling_floor_succ by done. done.
Qed.

End WarpProperties.

(** ** warp on explicit images *)

(** The pixel corners of an image 76.8 units wide, at a ground sample
    distance of 0.3: in binary64 the corners are [256 - 2^-45] pixels
    apart, not 256. *)
Lemma ex_narrow_corners :
  warp_corners (HC := example_catalog 0 0) ex_narrow {[ "gsd"%string := (3 # 10)%Q ]}
  = Ok ({| sa := S754_finite false 5404319552844595 (-54);
           sb := S754_zero false; sc := S754_zero false; sd := S754_zero false;
           se := S754_finite true 5404319552844595 (-54);
           sf := S754_finite false 4503599627370496 (-43) |},
        (S754_zero false, S754_finite false 5864062014805332 (-43)),
        (S754_finite false 9007199254740991 (-45), S754_zero false)).
Proof. vm_compute. reflexivity. Qed.

(** That image tiled by 256: the quotient in X is below one, so there is
    one column of tiles; there are three rows, and three tasks. *)
Lemma warp_tile_count_witness :
  exists img,
    warp (HC := example_catalog 0 0) (HU := example_util) (HD := example_Dask)
      ex_narrow (DemNumber 0) None None {[ "gsd"%string := (3 # 10)%Q ]} = Ok img /\
    Z.of_nat (size (arr_dask (gdw_array img))) = (0 + 1) * (2 + 1) /\
    arr_shape (gdw_array img) = [8; 768; 256].
Proof.
  destruct (Ok_exists
              (warp (HC := example_catalog 0 0) (HU := example_util) (HD := example_Dask)
                 ex_narrow (DemNumber 0) None None {[ "gsd"%string := (3 # 10)%Q ]})
              (fun img => arr_shape (gdw_array img) = [8; 768; 256]))
    as (img & Hw & Hs); [vm_compute; reflexivity|].
  exists img. split; [exact Hw|]. split; [|exact Hs].
  destruct (warp_tile_count (HC := example_catalog 0 0) (HU := example_util)
              (HD := example_Dask)
              ex_narrow (DemNumber 0) None None {[ "gsd"%string := (3 # 10)%Q ]}
              _ _ _
              (S754_finite false 9007199254740991 (-53))
              (S754_finite false 5864062014805332 (-51))
              img ex_narrow_corners)
    as [Hcount _].
  - vm_compute. reflexivity.
  - vm_compute. reflexivity.
  - vm_compute. discriminate.
  - vm_compute. discriminate.
  - exact Hw.
  - rewrite Hcount. vm_compute. reflexivity.
Defined.

(** C1 as stated fails when the extent is a whole number of tiles: an
    image of 512 by 512 pixels tiled by 256 gets three tiles by three,
    nine tasks, where the ceilings give two by two. *)
Lemma warp_tile_count_exact_multiple :
  exists img,
    warp (HC := example_catalog 0 0) (HU := example_util) (HD := example_Dask)
      (ex_full 0 0) (DemNumber 0) None None ∅ = Ok img /\
    bounds (ipe_geo (ex_full 0 0)) = [0%Q; 0%Q; 512%Q; 512%Q] /\
    Z.of_nat (size (arr_dask (gdw_array img))) = 9 /\
    Qceiling ((512 - 0) / 1 / 256) * Qceiling ((512 - 0) / 1 / 256) = 4 /\
    Z.of_nat (size (arr_dask (gdw_array img)))
      <> Qceiling ((512 - 0) / 1 / 256) * Qceiling ((512 - 0) / 1 / 256).
Proof. apply Ok_exists. vm_compute. split_and!; (reflexivity || discriminate). Qed.

(** C2.  With minimum tile indices [minTileX = 3] and [minTileY = 5] in
    the metadata, the two tiles of the 300 by 200 window are keyed at row
    [-5] and columns [-3] and [-2]: the loop indices already start at
    zero, and subtracting the minimum tile indices moves the keys below
    zero, away from the blocks [(0, 0)] and [(0, 1)] of the declared shape
    and of the chunks, one block of rows and two blocks of columns. *)
Theorem warp_keys_shifted_below_zero :
  exists img,
    warp (HC := example_catalog 3 5) (HU := example_util) (HD := example_Dask)
      (ex_aoi 3 5) (DemNumber 0) None None ∅ = Ok img /\
    arr_shape (gdw_array img) = [8; 256; 512] /\
    arr_chunks (gdw_array img) = [[8]; [256]; [256; 256]] /\
    fst <$> map_to_list (arr_dask (gdw_array img))
      = [ ("warp-1040010000000000"%string, 0, -5, -3);
          ("warp-1040010000000000"%string, 0, -5, -2) ] /\
    arr_dask (gdw_array img) !! ("warp-1040010000000000"%string, 0, 0, 0) = None /\
    arr_dask (gdw_array img) !! ("warp-1040010000000000"%string, 0, 0, 1) = None.
Proof. apply Ok_exists. vm_compute. split_and!; reflexivity. Qed.

(** ** ndvi *)

Lemma zip_with_fused {A B C D E} (f : C -> D -> E) (g : A -> B -> C) (h : A -> B -> D)
    (l : list A) : forall k : list B,
  zip_with f (zip_with g l k) (zip_with h l k)
  = zip_with (fun x y => f (g x y) (h x y)) l k.
Proof.
  induction l as [|x l IH]; intros [|y k]; cbn; [done..|]. by rewrite IH.
Qed.

(** Difference over sum, band by band, is the normalized difference
    sample by sample. *)
Lemma elementwise_fused (x y : band spec_float) :
  elementwise float32.div (elementwise float32.sub x y) (elementwise float32.add x y)
  = elementwise normalized_difference x y.
Proof.
  unfold elementwise. rewrite zip_with_fused. revert y.
  induction x as [|r x IH]; intros [|s y]; cbn; [done..|].
  by rewrite zip_with_fused, IH.
Qed.

Lemma elementwise_uniform {A B C} (op : A -> B -> C) rows cols a b :
  elementwise op (uniform rows cols a) (uniform rows cols b)
  = uniform rows cols (op a b).
Proof. unfold elementwise, uniform. by rewrite !zip_with_replicate. Qed.

Lemma elementwise_lookup {A B C} (op : A -> B -> C) (x : band A) (y : band B) i j a b :
  x !! i ≫= (.!! j) = Some a -> y !! i ≫= (.!! j) = Some b ->
  elementwise op x y !! i ≫= (.!! j) = Some (op a b).
Proof.
  unfold elementwise. intros Hx Hy. rewrite lookup_zip_with.
  destruct (x !! i) as [r|]; [|done]. destruct (y !! i) as [s|]; [|done].
  cbn in Hx, Hy |- *. rewrite (lookup_zip_with op r s j), Hx, Hy. done.
Qed.

Lemma astype_band_lookup {A} {HA : AsType A} (x : band A) i j a :
  x !! i ≫= (.!! j) = Some a ->
  astype_band x !! i ≫= (.!! j) = Some (astype_float32 a).
Proof.
  unfold astype_band. intros Hx. rewrite list_lookup_fmap.
  destruct (x !! i) as [r|]; [|done]. cbn in Hx |- *.
  by rewrite list_lookup_fmap, Hx.
Qed.

Lemma astype_band_uniform {A} {HA : AsType A} rows cols (v : A) :
  astype_band (uniform rows cols v) = uniform rows cols (astype_float32 v).
Proof. unfold astype_band, uniform. by rewrite !fmap_replicate. Qed.

Section NdviProperties.
Context {A : Type} {HA : AsType A}.

Lemma ndvi_of_bands (self : list (band A)) (a b : band A) :
  self !! 6%nat = Some a -> self !! 4%nat = Some b ->
  ndvi self = Ok (elementwise normalized_difference (astype_band a) (astype_band b)).
Proof.
  intros Ha Hb. unfold ndvi, read_bands, _ndvi_bands. cbn [mapM].
  rewrite (index_Ok _ _ _ Ha), (index_Ok _ _ _ Hb). cbn.
  by rewrite elementwise_fused.
Qed.

End NdviProperties.

(** The binary32 number nearest to 0.6. *)
Lemma float32_nearest_0_6 :
  float32.of_float (float64.of_ratio 3 5) = S754_finite false 10066330 (-24) /\
  (Qabs (float32.to_Q (S754_finite false 10066330 (-24)) - (3 # 5)) <= 1 # 2 ^ 25)%Q.
Proof. split; [reflexivity|]. vm_compute. discriminate. Qed.

(** C9.  [ndvi] reads band 6 and band 4, in this order, converts them to
    binary32 and returns, sample by sample, the difference of the two
    divided by their sum; an image without a band 6 cannot be read.  For a
    band 6 that is 0.8 everywhere and a band 4 that is 0.2 everywhere the
    result is 0.6 everywhere (the binary32 number nearest to 0.6). *)
Theorem ndvi_normalized_difference :
  (forall (A : Type) (HA : AsType A) (self : list (band A)) (a b : band A),
     self !! 6%nat = Some a -> self !! 4%nat = Some b ->
     exists out,
       ndvi self = Ok out /\
       out = elementwise normalized_difference (astype_band a) (astype_band b) /\
       forall i j x y,
         a !! i ≫= (.!! j) = Some x -> b !! i ≫= (.!! j) = Some y ->
         out !! i ≫= (.!! j)
         = Some (float32.div
                   (float32.sub (astype_float32 x) (astype_float32 y))
                   (float32.add (astype_float32 x) (astype_float32 y))))
  /\ (forall (A : Type) (HA : AsType A) (self : list (band A)),
        (length self <= 6)%nat -> ndvi self = Raise IndexError)
  /\ (forall (self : list (band spec_float)) (rows cols : nat),
        self !! 6%nat = Some (uniform rows cols (float64.of_ratio 4 5)) ->
        self !! 4%nat = Some (uniform rows cols (float64.of_ratio 1 5)) ->
        ndvi self = Ok (uniform rows cols (float32.of_float (float64.of_ratio 3 5)))).
Proof.
  split_and!.
  - intros A HA self a b Ha Hb. eexists. split; [by apply ndvi_of_bands|].
    split; [reflexivity|]. intros i j x y Hx Hy.
    apply (elementwise_lookup normalized_difference);
      by apply astype_band_lookup.
  - intros A HA self Hl. unfold ndvi, read_bands, _ndvi_bands. cbn [mapM].
    rewrite (index_Raise self 6); [reflexivity|]. by apply lookup_ge_None.
  - intros self rows cols Ha Hb. rewrite (ndvi_of_bands _ _ _ Ha Hb).
    rewrite !astype_band_uniform, elementwise_uniform. reflexivity.
Qed.

(** The scenario on an image of eight bands of two rows and three
    columns. *)
Example ndvi_two_by_three :
  ndvi (ex_bands 2 3) = Ok (uniform 2 3 (S754_finite false 10066330 (-24))).
Proof. vm_compute. reflexivity. Qed.

(** * Further properties of the code *)

(** ** DaskImage.randwindow with a square window *)

Lemma bind_fmap_list {A B C} (f : A -> B) (g : B -> list C) (l : list A) :
  (f <$> l) ≫= g = l ≫= (g ∘ f).
Proof. induction l as [|x l IH]; csimpl; [done|]. by rewrite IH. Qed.

Lemma bind_ext_list {A B} (f g : A -> list B) (l : list A) :
  (forall x, x ∈ l -> f x = g x) -> l ≫= f = l ≫= g.
Proof.
  induction l as [|x l IH]; intros H; csimpl; [done|].
  rewrite (H x) by left. rewrite IH; [done|]. intros y Hy. apply H. by right.
Qed.

(** X1.  For a square window of [k] rows and columns that is smaller
    than the image, [randwindow] returns a window of exactly [k] by [k]
    samples inside the image; every position of the top-left corner from
    [(0, 0)] to [(n - k - 1, m - k - 1)] is one outcome, each exactly once,
    so all of them are equally likely and the windows touching the last
    row or the last column are never drawn. *)
Theorem randwindow_square (b n m k : Z) :
  0 < k -> k < n -> k < m ->
  randwindow [b; n; m] [k; k] =
    Ok (i ← seqZ 0 (n - k); j ← seqZ 0 (m - k);
        [Ok {| row0 := i; row1 := i + k; col0 := j; col1 := j + k |}]).
Proof.
  intros Hk Hn Hm. unfold randwindow, random.randrange. cbn.
  destruct (Z.ltb_spec k n); [|lia]. cbn.
  destruct (Z.ltb_spec k m); [|lia]. cbn. f_equal. unfold dist_bind.
  rewrite <- (Z.add_0_r k) at 1. rewrite <- (fmap_add_seqZ k 0 (n - k)).
  rewrite bind_fmap_list. apply bind_ext_list. intros i Hi. cbn.
  rewrite <- (Z.add_0_r k) at 1. rewrite <- (fmap_add_seqZ k 0 (m - k)).
  rewrite bind_fmap_list. apply bind_ext_list. intros j Hj. cbn.
  apply elem_of_seqZ in Hi, Hj.
  rewrite !clip_inside by lia. do 3 f_equal; lia.
Qed.

(** Windows of three by three samples on an image of ten by ten. *)
Lemma randwindow_square_witness :
  randwindow [1; 10; 10] [3; 3] =
    Ok (i ← seqZ 0 (10 - 3); j ← seqZ 0 (10 - 3);
        [Ok {| row0 := i; row1 := i + 3; col0 := j; col1 := j + 3 |}]).
Proof. apply (randwindow_square 1 10 10 3); lia. Defined.

(** X2.  [randwindow] raises instead of returning a window: a
    [ValueError] when the window has as many rows as the image or more, or
    as many columns or more (a window as large as the image is refused),
    and an [IndexError] on an image of two axes or for a window shape
    without entries. *)
Theorem randwindow_errors :
  (forall shp ws w0 s1, ws !! 0%nat = Some w0 -> shp !! 1%nat = Some s1 -> s1 <= w0 ->
     randwindow shp ws = Raise ValueError)
  /\ (forall b n m r c, r < n -> m <= c -> randwindow [b; n; m] [r; c] = Raise ValueError)
  /\ (forall n m r c, r < m -> randwindow [n; m] [r; c] = Raise IndexError)
  /\ (forall shp, randwindow shp [] = Raise IndexError).
Proof.
  split_and!.
  - intros shp ws w0 s1 Hw Hs Hle. unfold randwindow.
    rewrite (index_Ok _ _ _ Hw), (index_Ok _ _ _ Hs). cbn.
    unfold random.randrange. destruct (Z.ltb_spec w0 s1); [lia|done].
  - intros b n m r c Hr Hc. unfold randwindow, random.randrange. cbn.
    destruct (Z.ltb_spec r n); [|lia]. cbn.
    destruct (Z.ltb_spec c m); [lia|done].
  - intros n m r c Hr. unfold randwindow, random.randrange. cbn.
    destruct (Z.ltb_spec r m); [done|lia].
  - done.
Qed.

(** ** DaskImage.read *)

Lemma mapM_index_Ok {A} (t : list A) (sel : list nat) (out : list A) :
  mapM (Py.index t) sel = Ok out <-> Forall2 (fun i a => t !! i = Some a) sel out.
Proof.
  revert out. induction sel as [|i sel IH]; intros out; cbn.
  - split; [intros [= <-]; constructor | by intros ->%Forall2_nil_inv_l].
  - split.
    + intros H. inv_bind H. injection H as <-.
      unfold Py.index in Ha. destruct (t !! i) as [x|] eqn:E; [|discriminate].
      injection Ha as <-. constructor; [done|]. by apply IH.
    + intros (a & out' & Ha & Hout & ->)%Forall2_cons_inv_l.
      rewrite (index_Ok _ _ _ Ha). cbn. apply IH in Hout. rewrite Hout. done.
Qed.

Lemma mapM_cons {A B} (f : A -> result B) x l :
  mapM f (x :: l) = (y ← f x; k ← mapM f l; Ok (y :: k)).
Proof. reflexivity. Qed.

Lemma mapM_index_Raise {A} (t : list A) (sel : list nat) :
  Exists (fun i => (length t <= i)%nat) sel ->
  mapM (Py.index t) sel = Raise IndexError.
Proof.
  induction sel as [|i sel IH]; intros H; [by apply Exists_nil in H|].
  rewrite mapM_cons. destruct (t !! i) as [x|] eqn:E.
  - rewrite (index_Ok _ _ _ E). apply Exists_cons in H as [H|H].
    + apply lookup_lt_Some in E. lia.
    + by rewrite IH.
  - by rewrite (index_Raise _ _ E).
Qed.

(** X3.  [read()] returns the whole array.  [read(bands)] returns one
    band per selector, in the order of the selectors (a band may be
    repeated): item [k] of the result is the band numbered [bands[k]].  It
    succeeds exactly when every selector is below the number of bands, and
    raises [IndexError] as soon as one is not. *)
Theorem read_selects_bands {A} (self : list (band A)) :
  read self None = Ok self
  /\ (forall bands out, read self (Some bands) = Ok out ->
        length out = length bands /\
        forall k b, bands !! k = Some b -> (b < length self)%nat /\ out !! k = self !! b)
  /\ (forall bands, Forall (fun b => (b < length self)%nat) bands ->
        is_Ok (read self (Some bands)))
  /\ (forall bands, Exists (fun b => (length self <= b)%nat) bands ->
        read self (Some bands) = Raise IndexError).
Proof.
  split_and!.
  - done.
  - intros bands out H. apply mapM_index_Ok in H. split.
    + symmetry. by eapply Forall2_length.
    + intros k b Hk.
      destruct (Forall2_lookup_l _ _ _ _ _ H Hk) as (a & Ha & Hb).
      split; [by eapply lookup_lt_Some | by rewrite Ha, Hb].
  - intros bands Hall. cbn. unfold read_bands.
    induction Hall as [|b bands Hb _ [out IH]].
    + by eexists.
    + apply lookup_lt_is_Some in Hb as [x Hx].
      rewrite mapM_cons, (index_Ok _ _ _ Hx), IH. by eexists.
  - intros bands H. by apply mapM_index_Raise.
Qed.

(** ** The window of a geometry *)

Lemma Qint_integer q : is_integer q -> Qint q = Qfloor q.
Proof.
  unfold is_integer, Qint, Qfloor. destruct q as [n d]. cbn.
  unfold Qeq, inject_Z; cbn. intros E.
  assert (E' : n = (n / Z.pos d) * Z.pos d) by lia.
  rewrite E' at 1. rewrite Z.quot_mul; lia.
Qed.

Lemma sanitize_index_integer q : is_integer q -> sanitize_index q = Ok (Qfloor q).
Proof.
  intros Hq. unfold sanitize_index. rewrite (Qint_integer _ Hq).
  by rewrite (proj2 (Qeq_bool_iff _ _) Hq).
Qed.

Lemma sanitize_index_fraction q : ~ is_integer q -> sanitize_index q = Raise IndexError.
Proof.
  intros Hq. unfold sanitize_index.
  destruct (Qeq_bool (inject_Z (Qint q)) q) eqn:E; [|done].
  apply Qeq_bool_iff in E. destruct Hq. unfold is_integer.
  by rewrite <- (Qfloor_comp _ _ E), Qfloor_Z.
Qed.

Lemma sanitize_index_Ok q z : sanitize_index q = Ok z -> is_integer q /\ z = Qfloor q.
Proof.
  intros Hs. destruct (Qeq_dec (inject_Z (Qfloor q)) q) as [Hq|Hq].
  - rewrite (sanitize_index_integer _ Hq) in Hs. by injection Hs as <-.
  - by rewrite (sanitize_index_fraction _ Hq) in Hs.
Qed.

Lemma foldl_Qmin_le_init xs : forall x, (foldl Qmin x xs <= x)%Q.
Proof.
  induction xs as [|y ys IH]; intros x; cbn; [apply Qle_refl|].
  apply (Qle_trans _ _ _ (IH _)), Q.le_min_l.
Qed.

Lemma foldl_Qmax_ge_init xs : forall x, (x <= foldl Qmax x xs)%Q.
Proof.
  induction xs as [|y ys IH]; intros x; cbn; [apply Qle_refl|].
  apply (Qle_trans _ (Qmax x y)); [apply Q.le_max_l | apply IH].
Qed.

Lemma bounds_ordered g b0 b1 b2 b3 :
  shapely.bounds g = [b0; b1; b2; b3] -> (b0 <= b2 /\ b1 <= b3)%Q.
Proof.
  unfold shapely.bounds. destruct (coords g) as [|p ps]; [done|].
  intros [= <- <- <- <-]. split.
  - apply (Qle_trans _ (fst p)); [apply foldl_Qmin_le_init | apply foldl_Qmax_ge_init].
  - apply (Qle_trans _ (snd p)); [apply foldl_Qmin_le_init | apply foldl_Qmax_ge_init].
Qed.

Section GetitemShape.
Context {T : Type} {HS : Shapely} {HT : GeoTransform T}.

(** X4.  When [img[g]] succeeds on an image of shape
    [(bands, rows, cols)] and the pixel bounding box
    [(b0, b1, b2, b3)] of [g] lies in the box [(0, 0, cols, rows)], the
    four pixel bounds are whole numbers and the result has all the bands,
    [b3 - b1] rows and [b2 - b0] columns: exactly the pixel bounding box
    of the geometry, never more than the image. *)
Theorem getitem_window_shape (img img' : GeoImage T) (g px : geometry)
    (b rows cols : Z) (b0 b1 b2 b3 : Q) :
  im_shape img = [b; rows; cols] ->
  ops.transform (rev (__geo_transform__ img)) g = Ok px ->
  shapely.bounds px = [b0; b1; b2; b3] ->
  bounds_within [b0; b1; b2; b3] [0%Q; 0%Q; inject_Z cols; inject_Z rows] ->
  __getitem__ img g = Ok img' ->
  (is_integer b0 /\ is_integer b1 /\ is_integer b2 /\ is_integer b3) /\
  im_shape img' = [b; Qfloor b3 - Qfloor b1; Qfloor b2 - Qfloor b0] /\
  (inject_Z (Qfloor b3 - Qfloor b1) == b3 - b1 /\
   inject_Z (Qfloor b2 - Qfloor b0) == b2 - b0)%Q /\
  0 <= Qfloor b3 - Qfloor b1 <= rows /\ 0 <= Qfloor b2 - Qfloor b0 <= cols.
Proof.
  intros Hshape Hpx Hb (H0 & H1 & H2 & H3) Hg.
  destruct (bounds_ordered _ _ _ _ _ Hb) as [H02 H13].
  apply getitem_Ok_inv in Hg as (px' & c0 & c1 & c2 & c3 & shp & _ & Hpx' & Hb' & Hs & ->).
  rewrite Hpx in Hpx'. injection Hpx' as <-. rewrite Hb in Hb'.
  injection Hb' as <- <- <- <-.
  unfold array_getitem in Hs.
  apply bind_Ok in Hs as (r0 & Hr0 & Hs). apply bind_Ok in Hs as (r1 & Hr1 & Hs).
  apply bind_Ok in Hs as (k0 & Hk0 & Hs). apply bind_Ok in Hs as (k1 & Hk1 & Hs).
  apply bind_Ok in Hs as (w & Hw & Hs).
  apply sanitize_index_Ok in Hr0 as [I1 ->], Hr1 as [I3 ->], Hk0 as [I0 ->], Hk1 as [I2 ->].
  assert (F0 : 0 <= Qfloor b0) by (by apply Qfloor_resp_le in H0).
  assert (F1 : 0 <= Qfloor b1) by (by apply Qfloor_resp_le in H1).
  assert (F2 : Qfloor b2 <= cols) by (apply Qfloor_resp_le in H2; by rewrite Qfloor_Z in H2).
  assert (F3 : Qfloor b3 <= rows) by (apply Qfloor_resp_le in H3; by rewrite Qfloor_Z in H3).
  apply Qfloor_resp_le in H02, H13.
  rewrite Hshape in Hw, Hs. cbn in Hw. unfold Py.slice_bounds in Hw.
  rewrite !clip_inside in Hw by lia. injection Hw as <-. injection Hs as <-.
  unfold window_rows, window_cols; cbn.
  split; [done|]. split; [f_equal; f_equal; [lia | f_equal; lia]|].
  split; [|lia].
  unfold is_integer in *. unfold Z.sub.
  rewrite !inject_Z_plus, !inject_Z_opp, I0, I1, I2, I3. done.
Qed.

(** X5.  When the geometry lies in the image but one of its pixel bounds
    is not a whole number, [img[g]] raises [IndexError]: the bounds are
    passed to the array slice as they are, without rounding. *)
Theorem getitem_fractional_bounds (img : GeoImage T) (g px : geometry)
    (b rows cols : Z) (b0 b1 b2 b3 : Q) :
  im_shape img = [b; rows; cols] ->
  ops.transform (rev (__geo_transform__ img)) g = Ok px ->
  contains (shapely.box 0 0 (inject_Z cols) (inject_Z rows) true) px = true ->
  shapely.bounds px = [b0; b1; b2; b3] ->
  ~ (is_integer b0 /\ is_integer b1 /\ is_integer b2 /\ is_integer b3) ->
  __getitem__ img g = Raise IndexError.
Proof.
  intros Hshape Hpx Hc Hb Hfrac.
  unfold __getitem__. cbv zeta. rewrite shape_mapping.
  rewrite (contains_3axis _ _ _ _ _ Hshape), Hpx. cbn [mbind result_bind].
  rewrite Hc. cbn [py_assert mbind result_bind]. rewrite Hb.
  cbn [Py.index lookup list_lookup mbind result_bind]. unfold array_getitem.
  destruct (Qeq_dec (inject_Z (Qfloor b1)) b1) as [I1|I1];
    [rewrite (sanitize_index_integer _ I1) | by rewrite (sanitize_index_fraction _ I1)].
  destruct (Qeq_dec (inject_Z (Qfloor b3)) b3) as [I3|I3];
    [rewrite (sanitize_index_integer _ I3) | by rewrite (sanitize_index_fraction _ I3)].
  destruct (Qeq_dec (inject_Z (Qfloor b0)) b0) as [I0|I0];
    [rewrite (sanitize_index_integer _ I0) | by rewrite (sanitize_index_fraction _ I0)].
  destruct (Qeq_dec (inject_Z (Qfloor b2)) b2) as [I2|I2];
    [rewrite (sanitize_index_integer _ I2) | by rewrite (sanitize_index_fraction _ I2)].
  by destruct Hfrac.
Qed.

End GetitemShape.

(** The window of the box [(2, 3, 8, 9)] has six rows and six columns. *)
Lemma getitem_window_shape_witness :
  im_shape ex_clip1 = [1; Qfloor 9 - Qfloor 3; Qfloor 8 - Qfloor 2].
Proof.
  refine (proj1 (proj2 (getitem_window_shape (HS := example_Shapely)
            ex_image ex_clip1 ex_g1 _ 1 10 10 2 3 8 9
            eq_refl _ _ _ ex_image_getitem_g1))).
  - reflexivity.
  - vm_compute. reflexivity.
  - unfold bounds_within. split_and!; vm_compute; discriminate.
Defined.

(** A box starting at column 2.5 lies in the image and cannot be cut. *)
Lemma getitem_fractional_bounds_witness :
  __getitem__ (HS := example_Shapely) ex_image (shapely.box (5 # 2) 3 8 9 true)
    = Raise IndexError.
Proof.
  eapply (getitem_fractional_bounds (HS := example_Shapely) ex_image
            (shapely.box (5 # 2) 3 8 9 true) _ 1 10 10).
  - reflexivity.
  - reflexivity.
  - vm_compute. reflexivity.
  - reflexivity.
  - intros [H _]. vm_compute in H. discriminate.
Defined.

(** ** Cutting a window out of a window *)

Lemma foldl_Qmin_shift (a : Q) (vs us : list Q) :
  Forall2 (fun v u => (v == u - a)%Q) vs us ->
  forall x' x, (x' == x - a)%Q -> (foldl Qmin x' vs == foldl Qmin x us - a)%Q.
Proof.
  induction 1 as [|v u vs us Hvu _ IH]; intros x' x Hx; cbn; [done|].
  apply IH. rewrite Hx, Hvu. unfold Qminus. apply Q.plus_min_distr_r.
Qed.

Lemma foldl_Qmax_shift (a : Q) (vs us : list Q) :
  Forall2 (fun v u => (v == u - a)%Q) vs us ->
  forall x' x, (x' == x - a)%Q -> (foldl Qmax x' vs == foldl Qmax x us - a)%Q.
Proof.
  induction 1 as [|v u vs us Hvu _ IH]; intros x' x Hx; cbn; [done|].
  apply IH. rewrite Hx, Hvu. unfold Qminus. apply Q.plus_max_distr_r.
Qed.

(** Two geometries whose coordinates differ by one offset have bounds
    that differ by that offset. *)
Lemma bounds_shift (dx dy : Q) (g' g : geometry) (c0 c1 c2 c3 : Q) :
  Forall2 (fun p' p => (fst p' == fst p - dx /\ snd p' == snd p - dy)%Q)
          (coords g') (coords g) ->
  shapely.bounds g' = [c0; c1; c2; c3] ->
  exists d0 d1 d2 d3,
    shapely.bounds g = [d0; d1; d2; d3] /\
    (c0 == d0 - dx /\ c1 == d1 - dy /\ c2 == d2 - dx /\ c3 == d3 - dy)%Q.
Proof.
  unfold shapely.bounds. intros Hall Hb.
  destruct Hall as [|p' p ps' ps [Hx Hy] Hall]; [done|].
  injection Hb as <- <- <- <-. do 4 eexists. split; [reflexivity|].
  assert (Hxs : Forall2 (fun v u => (v == u - dx)%Q) (fst <$> ps') (fst <$> ps)).
  { apply Forall2_fmap. eapply Forall2_impl; [exact Hall|]. cbn. tauto. }
  assert (Hys : Forall2 (fun v u => (v == u - dy)%Q) (snd <$> ps') (snd <$> ps)).
  { apply Forall2_fmap. eapply Forall2_impl; [exact Hall|]. cbn. tauto. }
  split_and!.
  - by apply foldl_Qmin_shift.
  - by apply foldl_Qmin_shift.
  - by apply foldl_Qmax_shift.
  - by apply foldl_Qmax_shift.
Qed.

Lemma mapM_Forall2 {A B} (R : B -> B -> Prop) (f f' : A -> result B) (l : list A) :
  (forall x b, f x = Ok b -> exists b', f' x = Ok b' /\ R b b') ->
  forall k, mapM f l = Ok k -> exists k', mapM f' l = Ok k' /\ Forall2 R k k'.
Proof.
  intros Hf. induction l as [|x l IH]; intros k Hk.
  - injection Hk as <-. exists []. split; [done|constructor].
  - cbn in Hk. apply bind_Ok in Hk as (b & Hb & Hk).
    apply bind_Ok in Hk as (k0 & Hk0 & Hk). injection Hk as <-.
    destruct (Hf _ _ Hb) as (b' & Hb' & HR). destruct (IH _ Hk0) as (k' & Hk' & Hall).
    exists (b' :: k'). split; [|by constructor].
    cbn. rewrite Hb'. cbn. rewrite Hk'. done.
Qed.

(** The matrix translated by a pixel offset is degenerate exactly when
    the matrix is. *)
Lemma determinant_translated (t : Affine) (dx dy : Q) :
  (affine.determinant (affine.mul t (affine.translation dx dy))
     == affine.determinant t)%Q.
Proof. unfold affine.determinant; cbn. ring. Qed.

Lemma Qeq_bool_proper (x y z : Q) : (x == y)%Q -> Qeq_bool x z = Qeq_bool y z.
Proof.
  intros E. destruct (Qeq_bool y z) eqn:Ey.
  - apply Qeq_bool_iff. apply Qeq_bool_iff in Ey. by rewrite E.
  - apply Qeq_bool_false. apply Qeq_bool_neq in Ey. by rewrite E.
Qed.

(** The reverse mapping of a transform moved by a pixel offset is the
    reverse mapping of the transform, less the offset. *)
Lemma rev_add_offset (t : AffineTransform) (dx dy x y : Q) (p : point) :
  rev (add_offset t dx dy) x y = Ok p ->
  exists p0, rev t x y = Ok p0 /\ (fst p == fst p0 - dx /\ snd p == snd p0 - dy)%Q.
Proof.
  cbn. unfold affine.invert.
  rewrite (Qeq_bool_proper _ _ 0 (determinant_translated (_affine t) dx dy)).
  destruct (Qeq_bool (affine.determinant (_affine t)) 0) eqn:E; [done|].
  apply Qeq_bool_neq in E. cbn. intros [= <-]. eexists. split; [reflexivity|].
  unfold affine.determinant in E. unfold affine.inverse, affine.determinant. cbn.
  split; field; intros E'; apply E; rewrite <- E'; ring.
Qed.

Section NestedWindows.
Context {T : Type} {HS : Shapely} {HT : GeoTransform T}.

(** X6.  Nested windows, for any transform object whose reverse mapping
    moves by the offset when the transform is moved by a pixel offset
    (the affine transform object is one).  Cutting [g2] out of the window
    of [g1] gives the footprint and the bounds of cutting [g2] out of the
    image itself, and the two pixel offsets on the way add up to the pixel
    offset of [g2] in the original image: the transform of [img[g1][g2]]
    is the original one moved by the first offset and then by the second,
    the transform of [img[g2]] is the original one moved by their sum. *)
Theorem getitem_path_independent (img img1 img12 img2 : GeoImage T)
    (g1 g2 : geometry) :
  (forall (t : T) dx dy x y p, rev (add_offset t dx dy) x y = Ok p ->
     exists p0, rev t x y = Ok p0 /\
       (fst p == fst p0 - dx /\ snd p == snd p0 - dy)%Q) ->
  __getitem__ img g1 = Ok img1 ->
  __getitem__ img1 g2 = Ok img12 ->
  __getitem__ img g2 = Ok img2 ->
  __geo_interface__ img12 = __geo_interface__ img2 /\
  bounds img12 = bounds img2 /\
  exists dx1 dy1 dx2 dy2 dx dy,
    pixel_offset img g1 = Ok (dx1, dy1) /\
    pixel_offset img1 g2 = Ok (dx2, dy2) /\
    pixel_offset img g2 = Ok (dx, dy) /\
    (dx == dx1 + dx2 /\ dy == dy1 + dy2)%Q /\
    __geo_transform__ img12
      = add_offset (add_offset (__geo_transform__ img) dx1 dy1) dx2 dy2 /\
    __geo_transform__ img2 = add_offset (__geo_transform__ img) dx dy.
Proof.
  intros Hrev H1 H12 H2.
  apply getitem_Ok_inv in H1 as (px1 & a0 & a1 & a2 & a3 & shp1 & _ & Hpx1 & Hb1 & _ & ->).
  apply getitem_Ok_inv in H12 as (px12 & c0 & c1 & c2 & c3 & shp12 & _ & Hpx12 & Hb12 & _ & ->).
  apply getitem_Ok_inv in H2 as (px2 & d0 & d1 & d2 & d3 & shp2 & _ & Hpx2 & Hb2 & _ & ->).
  cbn [__geo_interface__ __geo_transform__] in *.
  split; [done|]. split; [done|].
  exists a0, a1, c0, c1, d0, d1.
  split; [unfold pixel_offset; rewrite Hpx1; cbn; by rewrite Hb1|].
  split; [unfold pixel_offset; cbn [__geo_transform__]; rewrite Hpx12; cbn; by rewrite Hb12|].
  split; [unfold pixel_offset; rewrite Hpx2; cbn; by rewrite Hb2|].
  split; [|done].
  unfold ops.transform in Hpx12, Hpx2.
  apply bind_Ok in Hpx12 as (k12 & Hk12 & Hpx12).
  apply bind_Ok in Hpx2 as (k2 & Hk2 & Hpx2).
  injection Hpx12 as <-. injection Hpx2 as <-.
  destruct (mapM_Forall2
    (fun p p0 : point => (fst p == fst p0 - a0 /\ snd p == snd p0 - a1)%Q)
    (fun p => rev (add_offset (__geo_transform__ img) a0 a1) (fst p) (snd p))
    (fun p => rev (__geo_transform__ img) (fst p) (snd p)) (coords g2))
    with (k := k12) as (k' & Hk' & Hall); [|done|].
  { intros p q Hq. by apply Hrev. }
  rewrite Hk2 in Hk'. injection Hk' as <-.
  destruct (bounds_shift a0 a1 {| geom_type := geom_type g2; coords := k12 |}
              {| geom_type := geom_type g2; coords := k2 |}
              c0 c1 c2 c3 Hall Hb12)
    as (e0 & e1 & e2 & e3 & Hb2' & E0 & E1 & _).
  rewrite Hb2 in Hb2'. injection Hb2' as <- <- <- <-.
  split; [rewrite E0 | rewrite E1]; ring.
Qed.

End NestedWindows.

(** The box [(4, 5, 6, 7)] cut out of the window of [(2, 3, 8, 9)] and
    out of the image of ten by ten: the offsets [(2, 3)] and [(2, 2)] add
    up to [(4, 5)]. *)
Lemma getitem_path_independent_witness :
  exists img2 dx dy,
    __getitem__ (HS := example_Shapely) ex_image ex_g2 = Ok img2 /\
    pixel_offset ex_image ex_g2 = Ok (dx, dy) /\
    (dx == 2 + 2 /\ dy == 3 + 2)%Q.
Proof.
  destruct (Ok_exists (__getitem__ (HS := example_Shapely) ex_image ex_g2)
              (fun _ => True)) as (img2 & H2 & _); [vm_compute; exact I|].
  destruct (getitem_path_independent (HS := example_Shapely)
              ex_image ex_clip1 ex_clip2 img2 ex_g1 ex_g2 rev_add_offset
              ex_image_getitem_g1 ex_clip1_getitem_g2 H2)
    as (_ & _ & dx1 & dy1 & dx2 & dy2 & dx & dy & Ho1 & Ho2 & Ho & [Ex Ey] & _).
  assert (E1 : pixel_offset ex_image ex_g1 = Ok (2%Q, 3%Q))
    by (vm_compute; reflexivity).
  assert (E2 : pixel_offset ex_clip1 ex_g2 = Ok (2%Q, 2%Q))
    by (vm_compute; reflexivity).
  rewrite E1 in Ho1. rewrite E2 in Ho2.
  injection Ho1 as <- <-. injection Ho2 as <- <-.
  exists img2, dx, dy. split; [exact H2|]. split; [exact Ho|]. split; [exact Ex|exact Ey].
Defined.

(** ** aoi and the projection of the geometry *)

Lemma kwargs_get_insert {A} (kwargs : gmap string A) k v d :
  kwargs_get (<[k := v]> kwargs) k d = v.
Proof. unfold kwargs_get. by rewrite lookup_insert_eq. Qed.

(** X7.  On an image without a projection [aoi] never reprojects the
    geometry: its result does not depend on pyproj, and [from_proj] is
    ignored whatever its value.  On any image, leaving [from_proj] out is
    the same as passing ["EPSG:4326"], and the same as passing [None]. *)
Theorem aoi_from_proj {T : Type} {HS : Shapely} {HT : GeoTransform T}
    (self : GeoImage T) (kwargs : gmap string pyval) :
  (proj self = None ->
     (forall (HP1 HP2 : Pyproj), aoi (HP := HP1) self kwargs = aoi (HP := HP2) self kwargs)
     /\ (forall (HP : Pyproj) v, aoi self (<["from_proj" := v]> kwargs) = aoi self kwargs))
  /\ (forall (HP : Pyproj), kwargs !! "from_proj" = None ->
        aoi self (<["from_proj" := PyStr "EPSG:4326"]> kwargs) = aoi self kwargs
        /\ aoi self (<["from_proj" := PyNone]> kwargs) = aoi self kwargs).
Proof.
  split.
  - intros Hproj. split.
    + intros HP1 HP2. unfold aoi, _parse_geoms, parsed. by rewrite Hproj.
    + intros HP v. unfold aoi, _parse_geoms, parsed.
      rewrite Hproj. by rewrite !kwargs_get_insert_ne by done.
  - intros HP Hk.
    assert (E : kwargs_get kwargs "from_proj" (PyStr "EPSG:4326") = PyStr "EPSG:4326")
      by (unfold kwargs_get; by rewrite Hk).
    split.
    + unfold aoi, _parse_geoms, parsed.
      rewrite (kwargs_get_insert_ne _ "from_proj" "bbox"),
        (kwargs_get_insert_ne _ "from_proj" "wkt"),
        (kwargs_get_insert_ne _ "from_proj" "geojson") by done.
      by rewrite kwargs_get_insert, E.
    + unfold aoi, _parse_geoms, parsed.
      rewrite (kwargs_get_insert_ne _ "from_proj" "bbox"),
        (kwargs_get_insert_ne _ "from_proj" "wkt"),
        (kwargs_get_insert_ne _ "from_proj" "geojson") by done.
      by rewrite kwargs_get_insert, E.
Qed.

(** ** warp: errors, tasks and what the result declares *)

Section WarpMore.
Context {T : Type} {HC : IpeCatalog T} {HU : IpeUtil} {HD : DaskLibrary}.

Lemma tile_quotient_zero extent : tile_quotient extent 0 = Raise ZeroDivisionError.
Proof. reflexivity. Qed.

(** X8.  The errors of [warp], in the order the code meets them.  When
    the determinant of the gsd-anchored transform is zero in binary64
    (the product of the ground sample distance by its opposite, so for a
    ground sample distance of zero and for one so small that the product
    underflows), [warp] raises [TransformNotInvertibleError].  Once the
    pixel corners are computed, a tile width of zero raises
    [ZeroDivisionError], and so does a tile height of zero once the count
    of tile columns is computed; once both counts are computed, a data
    type that the type table does not list raises [KeyError]. *)
Theorem warp_errors (self : IpeImage T) dem rpcs prj (kwargs : gmap string Q)
    (x0 y0 : Q) :
  let img_md := ipe_metadata_image self in
  let im_full := open_1b (imageId img_md) in
  let gsd := float64.of_Q (kwargs_get kwargs "gsd" (ipe_metadata_rpcs_gsd im_full)) in
  let gtf := affine64.from_gdal (float64.of_Q x0) gsd float64.zero
               (float64.of_Q y0) float64.zero
               (float64.mul (float64.of_Z (-1)) gsd) in
  Py.index (bounds (ipe_geo im_full)) 0 = Ok x0 ->
  Py.index (bounds (ipe_geo im_full)) 3 = Ok y0 ->
  (float64.is_zero (float64.sub (float64.mul gsd (float64.mul (float64.of_Z (-1)) gsd))
                                (float64.mul float64.zero float64.zero)) = true ->
     warp self dem rpcs prj kwargs = Raise TransformNotInvertibleError)
  /\ (forall gtf' ll ur, warp_corners self kwargs = Ok (gtf', ll, ur) ->
        gtf' = gtf /\
        (tileXSize img_md = 0 -> warp self dem rpcs prj kwargs = Raise ZeroDivisionError)
        /\ (forall nx,
              chunk_count (float64.sub (fst ur) (fst ll)) (tileXSize img_md) = Ok nx ->
              (tileYSize img_md = 0 ->
                 warp self dem rpcs prj kwargs = Raise ZeroDivisionError)
              /\ (forall ny,
                    chunk_count (float64.sub (snd ll) (snd ur)) (tileYSize img_md) = Ok ny ->
                    IPE_TO_DTYPE !! dataType img_md = None ->
                    warp self dem rpcs prj kwargs = Raise KeyError))).
Proof.
  intros img_md im_full gsd gtf Hx0 Hy0. split.
  - intros Hdeg. unfold warp, warp_corners. fold img_md im_full gsd.
    rewrite Hx0, Hy0. cbn [mbind result_bind]. fold gtf.
    unfold affine64.invert, affine64.is_degenerate, affine64.determinant.
    cbn [sa sb sd se gtf affine64.from_gdal]. by rewrite Hdeg.
  - intros gtf' ll ur Hc. split.
    + unfold warp_corners in Hc. fold img_md im_full gsd in Hc.
      rewrite Hx0, Hy0 in Hc. cbn [mbind result_bind] in Hc. fold gtf in Hc.
      apply bind_Ok in Hc as (igtf & _ & Hc). apply bind_Ok in Hc as (ll' & _ & Hc).
      apply bind_Ok in Hc as (ur' & _ & Hc). by injection Hc as <- _ _.
    + split.
      * intros Htw. unfold warp. fold img_md. rewrite Hc. cbn [mbind result_bind].
        unfold chunk_count. by rewrite Htw, tile_quotient_zero.
      * intros nx Hnx. split.
        -- intros Hth. unfold warp. fold img_md. rewrite Hc. cbn [mbind result_bind].
           rewrite Hnx. cbn [mbind result_bind].
           unfold chunk_count. by rewrite Hth, tile_quotient_zero.
        -- intros ny Hny Hdt. unfold warp. fold img_md. rewrite Hc.
           cbn [mbind result_bind]. rewrite Hnx. cbn [mbind result_bind].
           rewrite Hny. cbn [mbind result_bind]. by rewrite Hdt.
Qed.

(** X9.  The task of every tile.  When [warp] returns, with [nx] tile
    columns and [ny] tile rows, the keys of the graph are exactly
    [(name, 0, y - minTileY, x - minTileX)] for [0 <= y < ny] and
    [0 <= x < nx], and the key of [(y, x)] holds a call of [warp_geometry]
    on the full source image with the [dem], [rpcs], [proj] and ground
    sample distance of the call and the footprint [px_to_geom] gives for
    the pixel corner [x] tile widths right of the left pixel edge of the
    image and [y] tile heights below its top one, the sums taken in
    binary64. *)
Theorem warp_task_lookup (self : IpeImage T) dem rpcs prj (kwargs : gmap string Q)
    (img : GeoDaskWrapper T) (gtf : Affine64) (ll ur : point64) (nx ny : Z) :
  let img_md := ipe_metadata_image self in
  let im_full := open_1b (imageId img_md) in
  let gsd := kwargs_get kwargs "gsd" (ipe_metadata_rpcs_gsd im_full) in
  let nm := ("warp-" ++ ipe_id self)%string in
  warp self dem rpcs prj kwargs = Ok img ->
  warp_corners self kwargs = Ok (gtf, ll, ur) ->
  chunk_count (float64.sub (fst ur) (fst ll)) (tileXSize img_md) = Ok nx ->
  chunk_count (float64.sub (snd ll) (snd ur)) (tileYSize img_md) = Ok ny ->
  (forall k, k ∈ dom (arr_dask (gdw_array img)) <->
     exists y x, 0 <= y < ny /\ 0 <= x < nx /\
       k = (nm, 0, y - minTileY img_md, x - minTileX img_md)) /\
  (forall y x, 0 <= y < ny -> 0 <= x < nx ->
     exists xoff yoff footprint,
       float64.of_int (x * tileXSize img_md) = Ok xoff /\
       float64.of_int (y * tileYSize img_md) = Ok yoff /\
       px_to_geom img_md gtf (float64.add (fst ll) xoff) (float64.add (snd ur) yoff)
         = Ok footprint /\
       arr_dask (gdw_array img) !! (nm, 0, y - minTileY img_md, x - minTileX img_md)
       = Some {| task_warp_geometry_of := ipe_id im_full;
                 task_geometry := footprint;
                 task_dem := dem; task_rpcs := rpcs; task_proj := prj;
                 task_gsd := gsd |}).
Proof.
  intros img_md im_full gsd nm Hw Hc Hnx Hny.
  apply warp_Ok_inv in Hw
    as (gtf' & ll' & ur' & qx & qy & nx' & ny' & dt & tiles & ch & dty
        & Hc' & Hqx & Hqy & Hnx' & Hny' & _ & Htiles & _ & _ & ->).
  fold img_md im_full gsd nm in Hqx, Hqy, Htiles.
  rewrite Hc in Hc'. injection Hc' as <- <- <-.
  unfold chunk_count in Hnx, Hny. rewrite Hqx in Hnx. rewrite Hqy in Hny.
  cbn [mbind result_bind] in Hnx, Hny. rewrite Hnx' in Hnx. rewrite Hny' in Hny.
  injection Hnx as <-. injection Hny as <-.
  apply warp_tiles_Ok in Htiles as (Hdom & _ & Hlook).
  cbn [gdw_array arr_dask]. split; [exact Hdom|].
  intros y x Hy Hx. destruct (Hlook y x Hy Hx) as (task & Htask & Hl).
  unfold warp_tile in Htask.
  apply bind_Ok in Htask as (xoff & Hxoff & Htask).
  apply bind_Ok in Htask as (yoff & Hyoff & Htask).
  apply bind_Ok in Htask as (fp & Hfp & Htask). injection Htask as <-.
  exists xoff, yoff, fp. done.
Qed.

(** X10.  What [warp] declares about the array it returns.  The name is
    ["warp-"] followed by the image id, the dtype is the data type that
    the table entry of the metadata's data type stands for, the chunks are
    what dask makes of the block
    sizes [(numBands, tileYSize, tileXSize)] on the shape
    [(numBands, ny * tileYSize, nx * tileXSize)] for the two tile counts,
    and every key of the graph carries the name and the band index 0.
    The geo-interface and the geo-transform are those of the image [warp]
    was called on, unchanged. *)
Theorem warp_result_metadata (self : IpeImage T) dem rpcs prj (kwargs : gmap string Q)
    (img : GeoDaskWrapper T) :
  let img_md := ipe_metadata_image self in
  warp self dem rpcs prj kwargs = Ok img ->
  arr_name (gdw_array img) = ("warp-" ++ ipe_id self)%string /\
  (exists dt, IPE_TO_DTYPE !! dataType img_md = Some dt /\
     np_dtype dt = Ok (arr_dtype (gdw_array img))) /\
  (exists gtf ll ur nx ny,
     warp_corners self kwargs = Ok (gtf, ll, ur) /\
     chunk_count (float64.sub (fst ur) (fst ll)) (tileXSize img_md) = Ok nx /\
     chunk_count (float64.sub (snd ll) (snd ur)) (tileYSize img_md) = Ok ny /\
     normalize_chunks [numBands img_md; tileYSize img_md; tileXSize img_md]
       [numBands img_md; ny * tileYSize img_md; nx * tileXSize img_md]
       = Ok (arr_chunks (gdw_array img))) /\
  length (arr_shape (gdw_array img)) ∈ [2%nat; 3%nat] /\
  gdw_geo_interface img = __geo_interface__ (ipe_geo self) /\
  gdw_geo_transform img = __geo_transform__ (ipe_geo self) /\
  (forall k, k ∈ dom (arr_dask (gdw_array img)) ->
     k.1.1.1 = arr_name (gdw_array img) /\ k.1.1.2 = 0).
Proof.
  intros img_md Hw. pose proof Hw as Hw'.
  apply warp_Ok_inv in Hw
    as (gtf & ll & ur & qx & qy & nx & ny & dt & tiles & ch & dty
        & Hc & Hqx & Hqy & Hnx & Hny & Hdt & Htiles & Hch & Hdty & ->).
  fold img_md in Hqx, Hqy, Htiles, Hch, Hdt.
  cbn [gdw_array arr_name arr_dtype arr_chunks arr_dask gdw_geo_interface
       gdw_geo_transform].
  split; [done|]. split; [by exists dt|]. split.
  { exists gtf, ll, ur, (nx + 1), (ny + 1). split; [done|].
    unfold chunk_count. rewrite Hqx, Hqy. cbn [mbind result_bind].
    rewrite Hnx, Hny. done. }
  split.
  { unfold warp in Hw'. fold img_md in Hw'. rewrite Hc in Hw'.
    cbn [mbind result_bind] in Hw'. unfold chunk_count in Hw'.
    rewrite Hqx, Hqy in Hw'. cbn [mbind result_bind] in Hw'.
    rewrite Hnx, Hny in Hw'. cbn [mbind result_bind] in Hw'.
    rewrite Hdt in Hw'. cbn [mbind result_bind] in Hw'.
    rewrite Htiles in Hw'. cbn [mbind result_bind] in Hw'.
    apply GeoDaskWrapper_new_Ok in Hw' as (ch' & dt' & dty' & Hch' & _ & _ & Hl & E).
    cbn in Hch'. rewrite Hch in Hch'. injection Hch' as <-.
    unfold arr_shape. cbn [arr_chunks]. by rewrite length_fmap. }
  split; [done|]. split; [done|].
  intros k Hk. apply warp_tiles_Ok in Htiles as (Hdom & _).
  apply Hdom in Hk as (y & x & _ & _ & ->). done.
Qed.

End WarpMore.

(** A ground sample distance of zero given by keyword. *)
Lemma warp_errors_witness :
  warp (HC := example_catalog 0 0) (HU := example_util) (HD := example_Dask)
    (ex_aoi 0 0) (DemNumber 0) None None {[ "gsd"%string := 0%Q ]}
  = Raise TransformNotInvertibleError.
Proof.
  refine (proj1 (warp_errors (HC := example_catalog 0 0) (HU := example_util)
            (HD := example_Dask)
            (ex_aoi 0 0) (DemNumber 0) None None {[ "gsd"%string := 0%Q ]}
            0 512 _ _) _); vm_compute; reflexivity.
Defined.

(** A ground sample distance of [2^-565] is not zero, and its product
    with its opposite is zero in binary64. *)
Example warp_tiny_gsd :
  float64.of_Q (1 # 2 ^ 565) = S754_finite false 4503599627370496 (-617) /\
  warp (HC := example_catalog 0 0) (HU := example_util) (HD := example_Dask)
    (ex_aoi 0 0) (DemNumber 0) None None {[ "gsd"%string := (1 # 2 ^ 565)%Q ]}
  = Raise TransformNotInvertibleError.
Proof. split; vm_compute; reflexivity. Qed.

(** The transform and the pixel corners of the window of 300 by 200
    pixels at a ground sample distance of one. *)
Lemma ex_aoi_corners :
  warp_corners (HC := example_catalog 0 0) (ex_aoi 0 0) ∅
  = Ok ({| sa := float64.of_Z 1; sb := float64.zero; sc := float64.zero;
           sd := float64.zero; se := float64.of_Z (-1); sf := float64.of_Z 512 |},
        (float64.zero, float64.of_Z 200), (float64.of_Z 300, float64.zero)).
Proof. vm_compute. reflexivity. Qed.

(** The second tile of that window: its footprint starts one tile width
    right of the corner of the window and spans 256 units each way. *)
Lemma warp_task_lookup_witness :
  exists img task,
    warp (HC := example_catalog 0 0) (HU := example_util) (HD := example_Dask)
      (ex_aoi 0 0) (DemNumber 0) None None ∅ = Ok img /\
    arr_dask (gdw_array img) !! ("warp-1040010000000000"%string, 0, 0, 1) = Some task /\
    coords64 (task_geometry task)
      = [(float64.of_Z 512, float64.of_Z 256); (float64.of_Z 512, float64.of_Z 512);
         (float64.of_Z 256, float64.of_Z 512); (float64.of_Z 256, float64.of_Z 256);
         (float64.of_Z 512, float64.of_Z 256)] /\
    task_warp_geometry_of task = "1040010000000000"%string.
Proof.
  destruct (Ok_exists (warp (HC := example_catalog 0 0) (HU := example_util)
              (HD := example_Dask)
              (ex_aoi 0 0) (DemNumber 0) None None ∅) (fun _ => True))
    as (img & Hw & _); [vm_compute; exact I|].
  destruct (proj2 (warp_task_lookup (HC := example_catalog 0 0) (HU := example_util)
                (HD := example_Dask)
                (ex_aoi 0 0) (DemNumber 0) None None ∅ img _ _ _ 2 1 Hw ex_aoi_corners
                ltac:(vm_compute; reflexivity) ltac:(vm_compute; reflexivity))
              0 1 ltac:(lia) ltac:(lia))
    as (xoff & yoff & fp & Hxoff & Hyoff & Hfp & Hl).
  vm_compute in Hxoff, Hyoff. injection Hxoff as <-. injection Hyoff as <-.
  vm_compute in Hfp. injection Hfp as <-.
  eexists img, _. split; [exact Hw|]. split; [exact Hl|].
  split; vm_compute; reflexivity.
Defined.

Lemma warp_result_metadata_witness :
  exists img,
    warp (HC := example_catalog 0 0) (HU := example_util) (HD := example_Dask)
      (ex_aoi 0 0) (DemNumber 0) None None ∅ = Ok img /\
    arr_name (gdw_array img) = "warp-1040010000000000"%string /\
    gdw_geo_transform img = north_up.
Proof.
  destruct (Ok_exists (warp (HC := example_catalog 0 0) (HU := example_util)
              (HD := example_Dask)
              (ex_aoi 0 0) (DemNumber 0) None None ∅) (fun _ => True))
    as (img & Hw & _); [vm_compute; exact I|].
  destruct (warp_result_metadata (HC := example_catalog 0 0) (HU := example_util)
              (HD := example_Dask)
              (ex_aoi 0 0) (DemNumber 0) None None ∅ img Hw)
    as (Hn & _ & _ & _ & _ & Ht & _).
  exists img. split; [exact Hw|]. split; [exact Hn|exact Ht].
Defined.

(** ** ndvi where both bands are zero *)

Lemma normalized_difference_zero s s' :
  normalized_difference (S754_zero s) (S754_zero s') = S754_nan.
Proof. by destruct s, s'. Qed.

(** X13.  Where the samples of band 6 and band 4 are both zero after the
    conversion to binary32, [ndvi] divides zero by zero: the result holds
    NaN at that position, and no exception is raised. *)
Theorem ndvi_zero_pixels {A} {HA : AsType A} (self : list (band A)) (a b : band A)
    (i j : nat) (x y : A) (s s' : bool) :
  self !! 6%nat = Some a -> self !! 4%nat = Some b ->
  a !! i ≫= (.!! j) = Some x -> b !! i ≫= (.!! j) = Some y ->
  astype_float32 x = S754_zero s -> astype_float32 y = S754_zero s' ->
  exists out, ndvi self = Ok out /\ out !! i ≫= (.!! j) = Some S754_nan.
Proof.
  intros Ha Hb Hx Hy Ex Ey. eexists. split; [by apply ndvi_of_bands|].
  rewrite (elementwise_lookup normalized_difference _ _ i j _ _
             (astype_band_lookup _ _ _ _ Hx) (astype_band_lookup _ _ _ _ Hy)).
  by rewrite Ex, Ey, normalized_difference_zero.
Qed.

(** An integer image that is zero everywhere. *)
Lemma ndvi_zero_pixels_witness :
  exists out, ndvi (A := Z) (replicate 8 (uniform 2 2 0)) = Ok out /\
              out !! 1%nat ≫= (.!! 0%nat) = Some S754_nan.
Proof.
  apply (ndvi_zero_pixels (A := Z) (replicate 8 (uniform 2 2 0))
           (uniform 2 2 0) (uniform 2 2 0) 1 0 0 0 false false);
    reflexivity.
Defined.
